(** * Credential lifecycle and spreadsheet handlers of [authController.js]

    A shallow embedding of the Express handlers of
    [src/server/controllers/authController.js]: the OAuth2 callback and
    refresh handlers, the [setUserCredentials] helper and the spreadsheet
    handlers that go through it.  The handlers are effectful: they read and
    write the user collection, mutate the one shared OAuth2 client and call
    the external provider.  They are embedded in a state-and-exception monad
    over a [World]; an exception keeps the state reached so far, as in
    JavaScript, which is why the monad is [World -> Result A * World] and not
    a state transformer over an error monad. *)

From stdpp Require Import base option list gmap strings pretty.

Local Open Scope string_scope.
Local Open Scope list_scope.
Local Open Scope Z_scope.

(** ** JavaScript values

    The values a JSON request body, a query string or a route parameter can
    hold, as far as the handlers look at them.  Numbers are the integers
    that a double holds (the handlers only test them for truthiness and add
    one); [NaN] is the one non-integer number kept, because [undefined + 1]
    produces it.  [Obj]
    stands for a plain object: always truthy, never [===] to a value from
    another source; arrays are left out. *)
Module Js.

Inductive value : Type :=
| Undefined
| Null
| Boolean (b : bool)
| Num (n : Z)
| NaN
| Str (s : string)
| Obj.

#[global] Instance value_eq_dec : EqDecision value.
Proof. solve_decision. Defined.

(** [ToBoolean]: what [if (v)], [!v], [v || d] and [v ? a : b] test. *)
Definition truthy (v : value) : bool :=
  match v with
  | Undefined | Null | NaN => false
  | Boolean b => b
  | Num n => negb (n =? 0)
  | Str EmptyString => false
  | Str _ => true
  | Obj => true
  end.

(** [a === b] for values that come from two different sources (two
    objects are then never the same reference). *)
Definition strict_eq (a b : value) : bool :=
  match a, b with
  | Undefined, Undefined => true
  | Null, Null => true
  | Boolean x, Boolean y => bool_decide (x = y)
  | Num x, Num y => bool_decide (x = y)
  | Str x, Str y => bool_decide (x = y)
  | _, _ => false
  end.

(** [a || b] *)
Definition or (a b : value) : value := if truthy a then a else b.

(** Template-literal conversion [`${v}`]. *)
Definition to_string (v : value) : string :=
  match v with
  | Undefined => "undefined"
  | Null => "null"
  | Boolean true => "true"
  | Boolean false => "false"
  | Num n => pretty n
  | NaN => "NaN"
  | Str s => s
  | Obj => "[object Object]"
  end.

(** An integer rounded to the nearest double, ties to the even mantissa:
    exact up to [2^53], and to 53 significant bits beyond. *)
Definition to_double (m : Z) : Z :=
  let a := Z.abs m in
  if a <=? 2 ^ 53 then m
  else
    let e := Z.log2 a - 52 in
    let q := Z.shiftr a e in
    let r := a - Z.shiftl q e in
    let half := Z.shiftl 1 (e - 1) in
    let q := if (half <? r) || ((r =? half) && Z.odd q) then q + 1 else q in
    Z.sgn m * Z.shiftl q e.

(** [v + 1]; on numbers the sum is rounded as a double is. *)
Definition plus_one (v : value) : value :=
  match v with
  | Undefined | NaN => NaN
  | Null => Num 1
  | Boolean b => Num (if b then 2 else 1)
  | Num n => Num (to_double (n + 1))
  | Str s => Str (s +:+ "1")
  | Obj => Str "[object Object]1"
  end.

(** Property read [o.k] on a plain object: [undefined] when absent. *)
Definition get (o : gmap string value) (k : string) : value :=
  default Undefined (o !! k).

(** An optional string or number seen as a JavaScript value. *)
Definition of_string (o : option string) : value :=
  match o with Some s => Str s | None => Undefined end.

Definition of_number (o : option Z) : value :=
  match o with Some n => Num n | None => Undefined end.

End Js.

(** ** The user collection *)
Module Model.

(** Modelled from the spec: the Mongoose model [models/User.js] is not part
    of the sources.  The fields are those the controller reads and writes
    (spec section 3, UserCredential): [_id] is the internal id, [googleId]
    the external id; [refreshToken] and [tokenExpiry] are nullable. *)
Record User : Type := mkUser {
  _id : nat;
  googleId : string;
  email : string;
  name : string;
  picture : string;
  accessToken : string;
  refreshToken : option string;
  tokenExpiry : option Z
}.

#[global] Instance User_eq_dec : EqDecision User.
Proof. solve_decision. Defined.

Definition set_accessToken (v : string) (u : User) : User :=
  mkUser (_id u) (googleId u) (email u) (name u) (picture u)
         v (refreshToken u) (tokenExpiry u).

Definition set_refreshToken (v : option string) (u : User) : User :=
  mkUser (_id u) (googleId u) (email u) (name u) (picture u)
         (accessToken u) v (tokenExpiry u).

Definition set_tokenExpiry (v : option Z) (u : User) : User :=
  mkUser (_id u) (googleId u) (email u) (name u) (picture u)
         (accessToken u) (refreshToken u) v.

(** A document in memory: the fields and whether it was just built with
    [new User(...)] and is not yet in the collection. *)
Record Doc : Type := mkDoc { isNew : bool; fields : User }.

(** Modelled from the spec: [User.findOne({googleId})] returns the first
    document of the collection with that external id, if any. *)
Definition findOne_googleId (g : string) (db : list User) : option User :=
  snd <$> list_find (λ u, googleId u = g) db.

(** Modelled from the spec: [User.findOne({refreshToken})] returns the
    first document whose stored refresh token is the queried string; a
    query value that is not a string matches no document. *)
Definition findOne_refreshToken (q : Js.value) (db : list User) : option User :=
  snd <$> list_find (λ u, Js.Str <$> refreshToken u = Some q) db.

(** Modelled from the spec: [User.findById(id)]. *)
Definition findById (i : nat) (db : list User) : option User :=
  snd <$> list_find (λ u, _id u = i) db.

(** Modelled from the spec: [doc.save()] persists the record.  A new
    document is inserted; an existing one replaces the stored document with
    the same [_id], and saving fails when there is none. *)
Definition insertOne (u : User) (db : list User) : list User := db ++ [u].

Definition updateOne (u : User) (db : list User) : option (list User) :=
  (λ hit, <[hit.1 := u]> db) <$> list_find (λ v, _id v = _id u) db.

End Model.
Export Model.

Arguments findOne_googleId : simpl never.
Arguments findOne_refreshToken : simpl never.
Arguments findById : simpl never.
Arguments insertOne : simpl never.
Arguments updateOne : simpl never.

(** ** The external provider *)
Module Google.

(** What [oauth2Client.getToken] and [refreshAccessToken] resolve to. *)
Record Tokens : Type := mkTokens {
  access_token : string;
  refresh_token : option string;
  expiry_date : option Z
}.

(** What [oauth2.userinfo.get()] resolves to ([data]). *)
Record Profile : Type := mkProfile {
  p_id : string;
  p_email : string;
  p_name : string;
  p_picture : string
}.

(** The credentials held by the shared [oauth2Client]. *)
Record Credentials : Type := mkCredentials {
  cred_access_token : option string;
  cred_refresh_token : Js.value;
  cred_expiry_date : option Z
}.

(** A token response handed as it is to [oauth2Client.setCredentials]. *)
Definition credentials_of_tokens (tokens : Tokens) : Credentials :=
  {| cred_access_token := Some (access_token tokens);
     cred_refresh_token := Js.of_string (refresh_token tokens);
     cred_expiry_date := expiry_date tokens |}.

(** [sheetDetails.data.sheets[i].properties] *)
Record Sheet : Type := mkSheet { title : string; sheetId : Z }.

Record GridRange : Type := mkGridRange {
  range_sheetId : Js.value;
  startRowIndex : Z;
  startColumnIndex : Z;
  endColumnIndex : Js.value
}.

Record SortSpec : Type := mkSortSpec {
  dimensionIndex : Js.value;
  sortOrder : string
}.

Inductive Request : Type :=
| DeleteSheet (id : Z)
| SortRange (range : GridRange) (sortSpecs : list SortSpec).

(** The argument object of [sheets.spreadsheets.batchUpdate]: the handlers
    put [requests] either at top level or under [requestBody]. *)
Record BatchUpdate : Type := mkBatchUpdate {
  spreadsheetId : Js.value;
  requests : option (list Request);
  requestBody : option (list Request)
}.

(** What is thrown: a JavaScript [Error] of the handlers or a rejection of
    the provider. *)
Inductive Err : Type :=
| JsError (message : string)
| Rejected (status : Z) (message : string).

(** One call to the outside, with the credentials the shared client held
    when it was made. *)
Inductive Event : Type :=
| GetToken (code : Js.value)
| UserinfoGet (auth : Credentials)
| RefreshAccessToken (auth : Credentials)
| SpreadsheetsCreate (auth : Credentials) (title_ : Js.value)
| SpreadsheetsGet (auth : Credentials) (id : Js.value)
| SpreadsheetsBatchUpdate (auth : Credentials) (params : BatchUpdate).

(** The provider answers each call knowing the calls made so far. *)
Record Provider : Type := mkProvider {
  getToken : list Event → Js.value → Err + Tokens;
  userinfo_get : list Event → Credentials → Err + Profile;
  refreshAccessToken : list Event → Credentials → Err + Tokens;
  spreadsheets_create : list Event → Credentials → Js.value → Err + Js.value;
  spreadsheets_get : list Event → Credentials → Js.value → Err + list Sheet;
  spreadsheets_batchUpdate : list Event → Credentials → BatchUpdate → Err + unit
}.

End Google.
Export Google.

(** ** The world the handlers run in, and the handler monad *)

(** The collection, the one shared [oauth2Client], the calls made to the
    outside so far (oldest first) and the next fresh [_id]. *)
Record World : Type := mkWorld {
  db : list User;
  client : Credentials;
  trace : list Event;
  next_id : nat
}.

Definition with_db (d : list User) (w : World) : World :=
  mkWorld d (client w) (trace w) (next_id w).

Definition with_client (c : Credentials) (w : World) : World :=
  mkWorld (db w) c (trace w) (next_id w).

Definition log (e : Event) (w : World) : World :=
  mkWorld (db w) (client w) (trace w ++ [e]) (next_id w).

Inductive Result (A : Type) : Type :=
| Ok (a : A)
| Throw (e : Err).
Arguments Ok {A} a.
Arguments Throw {A} e.

Definition M (A : Type) : Type := World → Result A * World.

#[global] Instance M_ret : MRet M := λ A a w, (Ok a, w).

#[global] Instance M_bind : MBind M := λ A B f m w,
  match m w with
  | (Ok a, w') => f a w'
  | (Throw e, w') => (Throw e, w')
  end.

Definition throw {A : Type} (e : Err) : M A := λ w, (Throw e, w).

(** [oauth2Client.setCredentials(c)]: replaces the credentials of the shared
    client. *)
Definition setCredentials (c : Credentials) : M unit :=
  λ w, (Ok tt, with_client c w).

(** [await] of a call the handler makes on the client library: the call is
    recorded with the credentials the shared client holds when the handler
    issues it, and either resolves or throws.  What the library does inside
    the call is not in the sources: a repeated request, or a refresh after
    the provider refused the access token, is part of the provider's answer,
    and [client] stays what the handlers installed last with
    [setCredentials], not what the library may have stored since.  The
    properties that are about credentials speak of the credentials at the
    moment a call is issued. *)
Definition await_call {A : Type} (ev : Credentials → Event)
    (answer : list Event → Credentials → Err + A) : M A :=
  λ w, match answer (trace w) (client w) with
       | inl e => (Throw e, log (ev (client w)) w)
       | inr a => (Ok a, log (ev (client w)) w)
       end.

Definition User_findOne_googleId (g : string) : M (option User) :=
  λ w, (Ok (findOne_googleId g (db w)), w).

Definition User_findOne_refreshToken (q : Js.value) : M (option User) :=
  λ w, (Ok (findOne_refreshToken q (db w)), w).

Definition User_findById (i : nat) : M (option User) :=
  λ w, (Ok (findById i (db w)), w).

(** [new User({...})]: a document with a fresh [_id], not yet stored. *)
Definition new_User (mk : nat → User) : M Doc :=
  λ w, (Ok (mkDoc true (mk (next_id w))),
        mkWorld (db w) (client w) (trace w) (S (next_id w))).

(** [await doc.save()] *)
Definition save (d : Doc) : M unit :=
  λ w, if isNew d then (Ok tt, with_db (insertOne (fields d) (db w)) w)
       else match updateOne (fields d) (db w) with
            | Some d' => (Ok tt, with_db d' w)
            | None => (Throw (JsError "DocumentNotFoundError"), w)
            end.

(** ** Requests and responses *)

(** An incoming request: [req.user.id] (set by the session middleware),
    [req.params], [req.query] and [req.body], the object the JSON body
    parser leaves there (the empty object when the request has no body). *)
Record Req : Type := mkReq {
  user_id : nat;
  params : gmap string Js.value;
  query : gmap string Js.value;
  body : gmap string Js.value
}.

(** Modelled from the spec: [generateToken] of [utils/jwt] is not part of
    the sources; it produces a signed token that encodes the payload. *)
Record JwtPayload : Type := mkJwtPayload { jwt_id : nat; jwt_email : string }.

Inductive Jwt : Type := Signed (payload : JwtPayload).

Definition generateToken (p : JwtPayload) : Jwt := Signed p.

(** How a handler ends: [res.status(s).json(b)] ([res.json] is status 200),
    [res.cookie(..); res.redirect(..)], or [next(error)]. *)
Inductive Response : Type :=
| Json (status : nat) (payload : gmap string Js.value)
| CookieRedirect (cookie : string) (jwt : Jwt) (httpOnly : bool) (location : string)
| Next (e : Err).

(** [try { ... } catch (error) { next(error); }] *)
Definition try_next (handler : M Response) : World → Response * World :=
  λ w, match handler w with
       | (Ok r, w') => (r, w')
       | (Throw e, w') => (Next e, w')
       end.

(** ** The authentication handlers (first part of the source file) *)
Module AuthController.
Section Handlers.

Variable P : Provider.

(** [tokens.expiry_date ? new Date(tokens.expiry_date) : null]; a [Date] is
    its timestamp. *)
Definition expiry_or_null (e : option Z) : option Z :=
  if Js.truthy (Js.of_number e) then e else None.

(** The fields of [new User({...})] in [googleCallback]. *)
Definition callback_create (data : Profile) (tokens : Tokens) (i : nat) : User :=
  {| _id := i;
     googleId := p_id data;
     email := p_email data;
     name := p_name data;
     picture := p_picture data;
     accessToken := access_token tokens;
     refreshToken := refresh_token tokens;
     tokenExpiry := expiry_or_null (expiry_date tokens) |}.

(** The assignments of the [else] branch of [googleCallback]. *)
Definition callback_assign (tokens : Tokens) (user : User) : User :=
  let user := set_accessToken (access_token tokens) user in
  let user := if Js.truthy (Js.of_string (refresh_token tokens))
              then set_refreshToken (refresh_token tokens) user
              else user in
  set_tokenExpiry (expiry_or_null (expiry_date tokens)) user.

Definition googleCallback (req : Req) : World → Response * World :=
  try_next (
    let code := Js.get (query req) "code" in
    tokens ← await_call (λ _, GetToken code) (λ tr _, getToken P tr code);
    setCredentials (credentials_of_tokens tokens);;
    data ← await_call UserinfoGet (userinfo_get P);
    found ← User_findOne_googleId (p_id data);
    user ← match found with
           | None => new_User (callback_create data tokens)
           | Some u => mret (mkDoc false (callback_assign tokens u))
           end;
    save user;;
    let payload := {| jwt_id := _id (fields user);
                      jwt_email := email (fields user) |} in
    mret (CookieRedirect "token" (generateToken payload) true "/auth/profile")).

(** The two assignments under [if (user)] in [refreshToken]: they change
    the document in memory. *)
Definition refresh_assign (credentials : Tokens) (user : User) : User :=
  let user := set_accessToken (access_token credentials) user in
  set_tokenExpiry (expiry_date credentials) user.

(** The body of [refreshToken] inside [try], which also yields the
    document its local variable [user] holds at the end (the handler never
    saves it). *)
Definition refreshToken_body (req : Req) : M (option User * Response) :=
  let refreshToken := Js.get (body req) "refreshToken" in
  if negb (Js.truthy refreshToken) then
    mret (None, Json 400 {[ "message " := Js.Str "Refresh token missing." ]})
  else
    setCredentials {| cred_access_token := None;
                      cred_refresh_token := refreshToken;
                      cred_expiry_date := None |};;
    credentials ← await_call RefreshAccessToken (refreshAccessToken P);
    user ← User_findOne_refreshToken refreshToken;
    let user := refresh_assign credentials <$> user in
    mret (user,
          Json 200 {[ "accessToken" := Js.Str (access_token credentials);
                      "expiryDate" := Js.of_number (expiry_date credentials) ]}).

Definition refreshToken (req : Req) : World → Response * World :=
  try_next (r ← refreshToken_body req; mret r.2).

End Handlers.
End AuthController.

Arguments AuthController.callback_assign : simpl never.

(** ** The spreadsheet handlers (second part of the source file) *)
Module SheetController.
Section Handlers.

Variable P : Provider.

Definition setUserCredentials (userId : nat) : M User :=
  user ← User_findById userId;
  match user with
  | None => throw (JsError "User not found")
  | Some user =>
      setCredentials {| cred_access_token := Some (accessToken user);
                        cred_refresh_token := Js.of_string (refreshToken user);
                        cred_expiry_date := None |};;
      mret user
  end.

Definition createSpreadSheet (req : Req) : World → Response * World :=
  try_next (
    setUserCredentials (user_id req);;
    let title := Js.or (Js.get (body req) "title") (Js.Str "New Sheet") in
    id ← await_call (λ c, SpreadsheetsCreate c title)
                    (λ tr c, spreadsheets_create P tr c title);
    mret (Json 200 {[ "spreadsheetId" := id ]})).

Definition deleteSheet (req : Req) : World → Response * World :=
  try_next (
    setUserCredentials (user_id req);;
    let sheetId_ := Js.get (params req) "sheetId" in
    let sheetName := Js.get (body req) "sheetName" in
    sheets ← await_call (λ c, SpreadsheetsGet c sheetId_)
                        (λ tr c, spreadsheets_get P tr c sheetId_);
    match List.find (λ s, Js.strict_eq (Js.Str (title s)) sheetName) sheets with
    | None => mret (Json 404 {[ "message" := Js.Str "Sheet not found" ]})
    | Some sheet =>
        let request :=
          {| spreadsheetId := sheetId_;
             requests := None;
             requestBody := Some [DeleteSheet (sheetId sheet)] |} in
        await_call (λ c, SpreadsheetsBatchUpdate c request)
                   (λ tr c, spreadsheets_batchUpdate P tr c request);;
        mret (Json 200 {[ "message" :=
                Js.Str ("Sheet " +:+ Js.to_string sheetName
                        +:+ " deleted successfully.") ]})
    end).

(** [order === 'DESCENDING' ? 'DESCENDING' : 'ASCENDING'] *)
Definition sortOrder_of (order : Js.value) : string :=
  if Js.strict_eq order (Js.Str "DESCENDING") then "DESCENDING" else "ASCENDING".

Definition sortSheetRange (req : Req) : World → Response * World :=
  try_next (
    setUserCredentials (user_id req);;
    let sheetId_ := Js.get (params req) "sheetId" in
    let sheetName := Js.get (body req) "sheetName" in
    let sortColumnIndex := Js.get (body req) "sortColumnIndex" in
    let order := Js.get (body req) "order" in
    let sortOrder_ := sortOrder_of order in
    let request :=
      {| spreadsheetId := sheetId_;
         requests := Some [SortRange
           {| range_sheetId := sheetName;
              startRowIndex := 1;
              startColumnIndex := 0;
              endColumnIndex := Js.plus_one sortColumnIndex |}
           [ {| dimensionIndex := sortColumnIndex; sortOrder := sortOrder_ |} ] ];
         requestBody := None |} in
    await_call (λ c, SpreadsheetsBatchUpdate c request)
               (λ tr c, spreadsheets_batchUpdate P tr c request);;
    mret (Json 200 {[ "success" := Js.Boolean true;
                      "message" := Js.Str "Sheet sorted successfully" ]})).

End Handlers.
End SheetController.

(** ** Vocabulary of the properties *)

(** The credentials [setUserCredentials] installs for a stored user. *)
Definition stored_credentials (u : User) : Credentials :=
  {| cred_access_token := Some (accessToken u);
     cred_refresh_token := Js.of_string (refreshToken u);
     cred_expiry_date := None |}.

(** The credentials the refresh handler installs for a submitted token. *)
Definition refresh_credentials (refreshToken : Js.value) : Credentials :=
  {| cred_access_token := None;
     cred_refresh_token := refreshToken;
     cred_expiry_date := None |}.

(** The stored access token of [u] has expired at time [now]. *)
Definition expired (now : Z) (u : User) : Prop :=
  ∃ t, tokenExpiry u = Some t ∧ t < now.

Definition is_refresh (e : Event) : bool :=
  match e with RefreshAccessToken _ => true | _ => false end.

(** The credentials a call to the spreadsheet API was made with. *)
Definition api_auth (e : Event) : option Credentials :=
  match e with
  | SpreadsheetsCreate a _ | SpreadsheetsGet a _ | SpreadsheetsBatchUpdate a _ => Some a
  | GetToken _ | UserinfoGet _ | RefreshAccessToken _ => None
  end.

(** Every spreadsheet API call in [evs] comes after a token refresh. *)
Definition refresh_precedes_api (evs : list Event) : Prop :=
  ∀ i e, evs !! i = Some e → is_Some (api_auth e) →
         ∃ j r, (j < i)%nat ∧ evs !! j = Some r ∧ is_refresh r = true.

(** The store is well formed: [_id] is a key, [googleId] is a key, and every
    [_id] in use was handed out before [next_id]. *)
Definition store_ok (w : World) : Prop :=
  NoDup (_id <$> db w) ∧ NoDup (googleId <$> db w) ∧
  Forall (λ u, (_id u < next_id w)%nat) (db w).


(** ** A concrete scenario

    The first scenario of the specification: a first login with profile
    [g1 / a@x.com] and tokens [A1 / R1 / 1000], then a login of the same
    external id with tokens [A2 / no refresh token / 2000] and a changed
    profile.  The provider accepts a refresh of [R1] and rejects any other;
    the spreadsheet has the sheets [Sheet1] and [Data]. *)
Module Scenario.

Definition provider : Provider :=
  {| getToken := λ tr _,
       if bool_decide (tr = []) then inr (mkTokens "A1" (Some "R1") (Some 1000))
       else inr (mkTokens "A2" None (Some 2000));
     userinfo_get := λ tr _,
       if bool_decide (length tr = 1%nat)
       then inr (mkProfile "g1" "a@x.com" "Ann" "ann.png")
       else inr (mkProfile "g1" "b@x.com" "Bea" "bea.png");
     refreshAccessToken := λ _ c,
       if bool_decide (cred_refresh_token c = Js.Str "R1")
       then inr (mkTokens "A3" None (Some 3000))
       else inl (Rejected 400 "invalid_grant");
     spreadsheets_create := λ _ _ _, inr (Js.Str "sheet-1");
     spreadsheets_get := λ _ _ _, inr [mkSheet "Sheet1" 0; mkSheet "Data" 7];
     spreadsheets_batchUpdate := λ _ _ _, inr tt |}.

Definition no_credentials : Credentials :=
  {| cred_access_token := None;
     cred_refresh_token := Js.Undefined;
     cred_expiry_date := None |}.

Definition empty : World :=
  {| db := []; client := no_credentials; trace := []; next_id := 0 |}.

Definition ann : User :=
  {| _id := 0; googleId := "g1"; email := "a@x.com"; name := "Ann";
     picture := "ann.png"; accessToken := "A1"; refreshToken := Some "R1";
     tokenExpiry := Some 1000 |}.

Definition login_events (tokens : Tokens) : list Event :=
  [GetToken (Js.Str "c0de"); UserinfoGet (credentials_of_tokens tokens)].

(** The world after the first login. *)
Definition first : World :=
  {| db := [ann];
     client := credentials_of_tokens (mkTokens "A1" (Some "R1") (Some 1000));
     trace := login_events (mkTokens "A1" (Some "R1") (Some 1000));
     next_id := 1 |}.

Definition request (b : gmap string Js.value) : Req :=
  {| user_id := 0;
     params := {[ "sheetId" := Js.Str "S1" ]};
     query := {[ "code" := Js.Str "c0de" ]};
     body := b |}.

End Scenario.

(** ** Histories

    The operations that write the collection, and the worlds reached from the
    empty one by a sequence of them. *)
Inductive Op : Type :=
| Login (req : Req)
| Refresh (req : Req).

Definition step (P : Provider) (w : World) (op : Op) : World :=
  match op with
  | Login req => (AuthController.googleCallback P req w).2
  | Refresh req => (AuthController.refreshToken P req w).2
  end.

Definition run (P : Provider) (ops : list Op) (w : World) : World :=
  foldl (step P) w ops.

(** ** The profile page

    [getProfile] answers with a text, which [Response] does not have; the
    handlers of this part and of the next answer with a [Reply]. *)

(** One row of the answer of [listSheetsWithMetadata]. *)
Record SheetEntry : Type := mkSheetEntry {
  entry_title : string;
  entry_sheetId : Z;
  entry_rowCount : Z;
  entry_columnCount : Z
}.

(** [res.status(s).json(b)] and [next(error)] as before, the provider's
    [response.data] passed through by [res.json(response.data)], the text of
    [res.send], and [res.status(200).json({ success: true, sheets })]. *)
Inductive Reply (Data : Type) : Type :=
| Plain (r : Response)
| JsonData (d : Data)
| Send (text : string)
| SheetList (sheets : list SheetEntry).
Arguments Plain {Data} r.
Arguments JsonData {Data} d.
Arguments Send {Data} text.
Arguments SheetList {Data} sheets.

Module Account.

(** Reading [user.name] when [findById] resolved to [null] throws a
    [TypeError]; [message] is the one V8 gives it. *)
Definition null_name : Err :=
  JsError "Cannot read properties of null (reading 'name')".

Definition getProfile (req : Req) : World → Reply unit * World :=
  λ w, match (user ← User_findById (user_id req);
              match user with
              | None => throw null_name
              | Some user => mret (Send ("Welcome " +:+ name user))
              end) w with
       | (Ok r, w') => (r, w')
       | (Throw e, w') => (Plain (Next e), w')
       end.

End Account.

(** ** The remaining spreadsheet handlers

    The handlers of the second part of the source file that call the
    provider in other ways than the six of [Event].  Their calls are recorded
    beside the [World], each with the credentials the shared client held. *)
Module Sheets.

(** The entries of [requests: [...]] these handlers build.  [AddSheet]
    stands for [properties: { title, ...options }]. *)
Inductive SheetRequest : Type :=
| UpdateSpreadsheetProperties (title : Js.value) (fields : string)
| AddSheet (title : Js.value) (options : Js.value)
| UpdateSheetProperties (sheetId : Js.value) (title : Js.value) (fields : string).

(** The argument object of [batchUpdate]: [requests] at top level or under
    [resource]. *)
Record BatchParams : Type := mkBatchParams {
  spreadsheetId : Js.value;
  requests : option (list SheetRequest);
  resource : option (list SheetRequest)
}.

Inductive Call : Type :=
| SpreadsheetsBatchUpdate (params : BatchParams)
| SpreadsheetsGet (id : Js.value)
| ValuesGet (id : Js.value) (range : Js.value)
| ValuesClear (id : Js.value) (range : string)
| FilesDelete (fileId : Js.value).

(** [sheet.properties] with its optional [gridProperties]
    ([rowCount], [columnCount]). *)
Record SheetProperties : Type := mkSheetProperties {
  title : string;
  sheetId : Z;
  gridProperties : option (Z * Z)
}.

Record State : Type := mkState {
  core : World;
  calls : list (Credentials * Call)
}.

Definition MX (A : Type) : Type := State → Result A * State.

#[global] Instance MX_ret : MRet MX := λ A a x, (Ok a, x).

#[global] Instance MX_bind : MBind MX := λ A B f m x,
  match m x with
  | (Ok a, x') => f a x'
  | (Throw e, x') => (Throw e, x')
  end.

(** A computation on the [World] run inside a [State]. *)
Definition lift {A : Type} (m : M A) : MX A :=
  λ x, let (r, w') := m (core x) in (r, mkState w' (calls x)).

Section Handlers.

Variable Data : Type.

(** The provider: its answer to a call, knowing the calls made so far, and
    the sheets it reports for a spreadsheet. *)
Record Api : Type := mkApi {
  answer : list Event → list (Credentials * Call) → Credentials → Call → Err + Data;
  sheets_of : list Event → list (Credentials * Call) → Credentials → Js.value
              → Err + list SheetProperties
}.

Variable A : Api.

(** As [await_call]: the call is recorded with the credentials the shared
    client holds when the handler issues it; what the library does inside
    the call is part of the answer. *)
Definition await_api {B : Type} (c : Call)
    (reply : list Event → list (Credentials * Call) → Credentials → Err + B) : MX B :=
  λ x, let auth := client (core x) in
       let x' := mkState (core x) (calls x ++ [(auth, c)]) in
       match reply (trace (core x)) (calls x) auth with
       | inl e => (Throw e, x')
       | inr b => (Ok b, x')
       end.

Definition call (c : Call) : MX Data :=
  await_api c (λ tr cs auth, answer A tr cs auth c).

Definition raise {B : Type} (e : Err) : MX B := λ x, (Throw e, x).

(** [try { ... } catch (error) { next(error); }] *)
Definition try_next (handler : MX (Reply Data)) : State → Reply Data * State :=
  λ x, match handler x with
       | (Ok r, x') => (r, x')
       | (Throw e, x') => (Plain (Next e), x')
       end.

Definition bad_request (message : string) : Reply Data :=
  Plain (Json 400 {[ "success" := Js.Boolean false; "message" := Js.Str message ]}).

Definition renameSpreadSheet (req : Req) : State → Reply Data * State :=
  try_next (
    lift (SheetController.setUserCredentials (user_id req));;
    let sheetId := Js.get (params req) "sheetId" in
    let newTitle := Js.get (body req) "newTitle" in
    if negb (Js.truthy newTitle) then
      mret (bad_request "newTitle is required.")
    else
      let requestBody := [UpdateSpreadsheetProperties newTitle "title"] in
      call (SpreadsheetsBatchUpdate
              {| spreadsheetId := sheetId; requests := None;
                 resource := Some requestBody |});;
      mret (Plain (Json 200 {[ "success" := Js.Boolean true;
                               "message" := Js.Str "Spreadsheet renamed successfully";
                               "newTitle" := newTitle ]}))).

Definition createSheet (req : Req) : State → Reply Data * State :=
  try_next (
    lift (SheetController.setUserCredentials (user_id req));;
    let sheetId := Js.get (params req) "sheetId" in
    let sheetName := Js.get (body req) "sheetName" in
    let options := Js.get (body req) "options" in
    if negb (Js.truthy sheetName) then
      mret (bad_request "sheetName is required.")
    else
      let requestBody := [AddSheet sheetName options] in
      response ← call (SpreadsheetsBatchUpdate
                         {| spreadsheetId := sheetId; requests := None;
                            resource := Some requestBody |});
      mret (JsonData response)).

Definition renameSheet (req : Req) : State → Reply Data * State :=
  try_next (
    lift (SheetController.setUserCredentials (user_id req));;
    let sheetId := Js.get (params req) "sheetId" in
    let sheetName := Js.get (body req) "sheetName" in
    let newSheetName := Js.get (body req) "newSheetName" in
    if negb (Js.truthy sheetName) || negb (Js.truthy newSheetName) then
      mret (bad_request "Both sheetName and newSheetName are required")
    else
      let request :=
        {| spreadsheetId := sheetId;
           requests := Some [UpdateSheetProperties sheetName newSheetName "title"];
           resource := None |} in
      call (SpreadsheetsBatchUpdate request);;
      mret (Plain (Json 200 {[ "success" := Js.Boolean true;
                               "message" := Js.Str "Sheet renamed successfully" ]}))).

(** [const { sheetName } = req.body || 'Sheet1']: the body is an object,
    hence truthy, so [sheetName] is the field of the body. *)
Definition getSheet (req : Req) : State → Reply Data * State :=
  try_next (
    lift (SheetController.setUserCredentials (user_id req));;
    let sheetId := Js.get (params req) "sheetId" in
    let sheetName := Js.get (body req) "sheetName" in
    response ← call (ValuesGet sheetId sheetName);
    mret (JsonData response)).

Definition deleteSpreadSheet (req : Req) : State → Reply Data * State :=
  try_next (
    lift (SheetController.setUserCredentials (user_id req));;
    let sheetId := Js.get (params req) "sheetId" in
    call (FilesDelete sheetId);;
    mret (Plain (Json 200 {[ "message" := Js.Str "Spreadsheet deleted successfully" ]}))).

Definition clearDataFromSheet (req : Req) : State → Reply Data * State :=
  try_next (
    lift (SheetController.setUserCredentials (user_id req));;
    let sheetId := Js.get (params req) "sheetId" in
    let sheetName := Js.get (body req) "sheetName" in
    let range := Js.get (body req) "range" in
    if negb (Js.truthy sheetName) || negb (Js.truthy range) then
      mret (bad_request "sheetName and range are required.")
    else
      call (ValuesClear sheetId (Js.to_string sheetName +:+ "!" +:+ Js.to_string range));;
      mret (Plain (Json 200 {[ "success" := Js.Boolean true;
                               "message" := Js.Str "Data cleared successfully." ]}))).

(** Reading [rowCount] of an absent [gridProperties] throws a [TypeError];
    [message] is the one V8 gives it. *)
Definition undefined_rowCount : Err :=
  JsError "Cannot read properties of undefined (reading 'rowCount')".

(** The callback of [response.data.sheets.map(...)]. *)
Definition sheet_metadata (sheet : SheetProperties) : Err + SheetEntry :=
  match gridProperties sheet with
  | Some (rowCount, columnCount) =>
      inr {| entry_title := title sheet;
             entry_sheetId := sheetId sheet;
             entry_rowCount := rowCount;
             entry_columnCount := columnCount |}
  | None => inl undefined_rowCount
  end.

(** [Array.prototype.map] with a callback that may throw: the first throw
    ends the whole map. *)
Fixpoint map_throwing {X Y : Type} (f : X → Err + Y) (l : list X) : Err + list Y :=
  match l with
  | [] => inr []
  | x :: l =>
      match f x with
      | inl e => inl e
      | inr y => match map_throwing f l with
                 | inl e => inl e
                 | inr ys => inr (y :: ys)
                 end
      end
  end.

Definition listSheetsWithMetadata (req : Req) : State → Reply Data * State :=
  try_next (
    lift (SheetController.setUserCredentials (user_id req));;
    let sheetId := Js.get (params req) "sheetId" in
    sheets ← await_api (SpreadsheetsGet sheetId)
                       (λ tr cs auth, sheets_of A tr cs auth sheetId);
    match map_throwing sheet_metadata sheets with
    | inl e => raise e
    | inr sheetsMetadata => mret (SheetList sheetsMetadata)
    end).

End Handlers.

Arguments answer {Data} a.
Arguments sheets_of {Data} a.

(** The handlers that check their body, with the fields each requires and
    the message of its 400 answer. *)
Definition validating (Data : Type) (A : Api Data) :
    list ((Req → State → Reply Data * State) * list string * string) :=
  [ (renameSpreadSheet Data A, ["newTitle"], "newTitle is required.");
    (createSheet Data A, ["sheetName"], "sheetName is required.");
    (renameSheet Data A, ["sheetName"; "newSheetName"],
       "Both sheetName and newSheetName are required");
    (clearDataFromSheet Data A, ["sheetName"; "range"],
       "sheetName and range are required.") ].

Definition handlers (Data : Type) (A : Api Data) :
    list (Req → State → Reply Data * State) :=
  [ renameSpreadSheet Data A; createSheet Data A; renameSheet Data A;
    getSheet Data A; deleteSpreadSheet Data A; clearDataFromSheet Data A;
    listSheetsWithMetadata Data A ].

End Sheets.

(** ** A scenario for the remaining handlers

    The spreadsheet has a grid sheet [Sheet1] of 1000 by 26 and a chart
    sheet [Chart] without grid; the provider answers every other call with
    the text [done]. *)
Module SheetsScenario.

Definition api : Sheets.Api string :=
  {| Sheets.answer := λ _ _ _ _, inr "done";
     Sheets.sheets_of := λ _ _ _ id,
       if bool_decide (id = Js.Str "S1")
       then inr [Sheets.mkSheetProperties "Sheet1" 0 (Some (1000, 26))]
       else inr [Sheets.mkSheetProperties "Sheet1" 0 (Some (1000, 26));
                 Sheets.mkSheetProperties "Chart" 9 None] |}.

Definition state : Sheets.State :=
  {| Sheets.core := Scenario.first; Sheets.calls := [] |}.

Definition request (id : string) (b : gmap string Js.value) : Req :=
  {| user_id := 0;
     params := {[ "sheetId" := Js.Str id ]};
     query := ∅;
     body := b |}.

End SheetsScenario.

(** * Properties *)

(** Unfolds the monad so that a handler run reduces to the case analysis on
    the provider's answers and on the store. *)
Ltac run_handler :=
  unfold try_next, mbind, M_bind, mret, M_ret, await_call, setCredentials, throw,
    User_findOne_googleId, User_findOne_refreshToken, User_findById, new_User, save;
  cbn [fst snd].

(** ** JavaScript values *)

Lemma strict_eq_Str_l (t : string) (v : Js.value) :
  Js.strict_eq (Js.Str t) v = true ↔ v = Js.Str t.
Proof.
  destruct v; cbn; try (split; [discriminate | congruence]).
  rewrite bool_decide_eq_true. split; congruence.
Qed.

Lemma strict_eq_Str_r (v : Js.value) (t : string) :
  Js.strict_eq v (Js.Str t) = true ↔ v = Js.Str t.
Proof.
  destruct v; cbn; try (split; [discriminate | congruence]).
  rewrite bool_decide_eq_true. split; congruence.
Qed.

Lemma get_absent (o : gmap string Js.value) (k : string) :
  o !! k = None → Js.get o k = Js.Undefined.
Proof. unfold Js.get. by intros ->. Qed.

(** Adding one is exact on the integers below [2^53] in absolute value, and
    rounds as a double does from there on. *)
Lemma plus_one_exact (n : Z) :
  - 2 ^ 53 ≤ n + 1 ≤ 2 ^ 53 → Js.plus_one (Js.Num n) = Js.Num (n + 1).
Proof.
  intros Hn. cbn [Js.plus_one]. unfold Js.to_double.
  destruct (Z.leb_spec (Z.abs (n + 1)) (2 ^ 53)); [done|lia].
Qed.

Example plus_one_rounds :
  Js.plus_one (Js.Num (2 ^ 53)) = Js.Num (2 ^ 53) ∧
  Js.plus_one (Js.Num (2 ^ 53 + 2)) = Js.Num (2 ^ 53 + 4) ∧
  Js.plus_one (Js.Num (- 2 ^ 53 - 2)) = Js.Num (- 2 ^ 53).
Proof. split_and!; vm_compute; reflexivity. Qed.

(** ** The collection *)
Section StoreFacts.
Implicit Types (d : list User) (u v : User) (g : string).

Lemma findOne_googleId_Some g d u :
  findOne_googleId g d = Some u ↔
  ∃ i, d !! i = Some u ∧ googleId u = g ∧
       ∀ j v, d !! j = Some v → (j < i)%nat → googleId v ≠ g.
Proof.
  unfold findOne_googleId. split.
  - intros H. apply fmap_Some in H as [[i x] [H ->]].
    apply list_find_Some in H. eauto.
  - intros (i & H). apply fmap_Some. exists (i, u). split; [|done].
    by apply list_find_Some.
Qed.

Lemma findOne_googleId_None g d :
  findOne_googleId g d = None ↔ g ∉ googleId <$> d.
Proof.
  unfold findOne_googleId. rewrite fmap_None, list_find_None, Forall_forall.
  rewrite list_elem_of_fmap. split.
  - intros H (u & -> & Hu). by apply (H u).
  - intros H u Hu Hg. apply H. eauto.
Qed.

Lemma findById_Some (i : nat) d u :
  findById i d = Some u → u ∈ d ∧ _id u = i.
Proof.
  unfold findById. intros H. apply fmap_Some in H as [[j x] [H ->]].
  apply list_find_Some in H as (H & ? & _). split; [|done].
  apply list_elem_of_lookup. eauto.
Qed.


(** Saving a changed copy of a stored document succeeds, at or before the
    position the document was read from. *)
Lemma updateOne_stored u' d i u :
  d !! i = Some u → _id u' = _id u →
  ∃ j v, (j ≤ i)%nat ∧ d !! j = Some v ∧ _id v = _id u' ∧
         updateOne u' d = Some (<[j := u']> d).
Proof.
  intros Hi Hid.
  destruct (list_find (λ v, _id v = _id u') d) as [[j v]|] eqn:Hfind.
  - pose proof Hfind as Hf. apply list_find_Some in Hf as (Hj & Hv & Hmin).
    exists j, v. split_and!; [|done|done|].
    + destruct (decide (j ≤ i)%nat) as [|Hn]; [done|].
      exfalso. apply (Hmin i u Hi); [lia|done].
    + unfold updateOne. by rewrite Hfind.
  - apply list_find_None in Hfind. rewrite Forall_forall in Hfind.
    exfalso. apply (Hfind u); [|done]. apply list_elem_of_lookup. eauto.
Qed.

(** With unique [_id]s the replaced document is the one that was read. *)
Lemma updateOne_unique u' d i u :
  NoDup (_id <$> d) → d !! i = Some u → _id u' = _id u →
  updateOne u' d = Some (<[i := u']> d).
Proof.
  intros Hnd Hi Hid.
  destruct (updateOne_stored u' d i u Hi Hid) as (j & v & _ & Hj & Hv & ->).
  replace j with i; [done|].
  apply (NoDup_lookup (_id <$> d) i j (_id u) Hnd).
  - by rewrite list_lookup_fmap, Hi.
  - rewrite list_lookup_fmap, Hj. cbn. congruence.
Qed.

(** Replacing a document by one with the same key leaves the keys as they
    were. *)
Lemma fmap_insert_same {K : Type} (f : User → K) d i u u' :
  d !! i = Some u → f u' = f u → f <$> <[i := u']> d = f <$> d.
Proof.
  intros Hi Hf. rewrite list_fmap_insert, Hf. apply list_insert_id.
  by rewrite list_lookup_fmap, Hi.
Qed.

(** Looking a user up by external id after saving a changed copy of the
    document that lookup returned gives the changed copy. *)
Lemma findOne_googleId_updateOne g d u u' :
  findOne_googleId g d = Some u → _id u' = _id u → googleId u' = g →
  ∃ d', updateOne u' d = Some d' ∧ findOne_googleId g d' = Some u'
        ∧ length d' = length d.
Proof.
  intros Hf Hid Hg. apply findOne_googleId_Some in Hf as (i & Hi & Hgu & Hmin).
  destruct (updateOne_stored u' d i u Hi Hid) as (j & v & Hji & Hj & Hv & Hup).
  eexists. split; [exact Hup|]. split; [|by rewrite length_insert].
  apply findOne_googleId_Some. exists j. split_and!; [|done|].
  - apply list_lookup_insert_eq. by eapply lookup_lt_Some.
  - intros k x Hk Hkj. rewrite list_lookup_insert_ne in Hk by lia.
    apply (Hmin k x Hk). lia.
Qed.

End StoreFacts.

(** ** The assignments of the callback and of the refresh *)
Section Assignments.
Import AuthController.

Lemma callback_assign_id tokens u : _id (callback_assign tokens u) = _id u.
Proof. unfold callback_assign. by destruct (Js.truthy _). Qed.

Lemma callback_assign_googleId tokens u :
  googleId (callback_assign tokens u) = googleId u.
Proof. unfold callback_assign. by destruct (Js.truthy _). Qed.

Lemma callback_assign_profile tokens u :
  email (callback_assign tokens u) = email u ∧
  name (callback_assign tokens u) = name u ∧
  picture (callback_assign tokens u) = picture u.
Proof. unfold callback_assign. by destruct (Js.truthy _). Qed.

Lemma callback_assign_tokens tokens u :
  accessToken (callback_assign tokens u) = access_token tokens ∧
  tokenExpiry (callback_assign tokens u) = expiry_or_null (expiry_date tokens).
Proof. unfold callback_assign. by destruct (Js.truthy _). Qed.

Lemma callback_assign_refreshToken tokens u :
  Model.refreshToken (callback_assign tokens u) =
    if Js.truthy (Js.of_string (refresh_token tokens))
    then refresh_token tokens else Model.refreshToken u.
Proof. unfold callback_assign. by destruct (Js.truthy _). Qed.

End Assignments.

(** ** Runs of the handlers *)
Section Runs.
Import AuthController SheetController.
Variables (P : Provider) (req : Req) (w : World).

Let code := Js.get (query req) "code".
Let token := Js.get (body req) "refreshToken".

(** A repeat login that the provider accepts: the changed copy of the
    stored document is saved and the session cookie names its [_id]. *)
Lemma googleCallback_existing tokens data u :
  getToken P (trace w) code = inr tokens →
  userinfo_get P (trace w ++ [GetToken code]) (credentials_of_tokens tokens)
    = inr data →
  findOne_googleId (p_id data) (db w) = Some u →
  ∃ d', updateOne (callback_assign tokens u) (db w) = Some d' ∧
    findOne_googleId (p_id data) d' = Some (callback_assign tokens u) ∧
    length d' = length (db w) ∧
    googleCallback P req w =
    (CookieRedirect "token"
       (generateToken {| jwt_id := _id u; jwt_email := email u |})
       true "/auth/profile",
     {| db := d';
        client := credentials_of_tokens tokens;
        trace := trace w ++ [GetToken code;
                             UserinfoGet (credentials_of_tokens tokens)];
        next_id := next_id w |}).
Proof.
  intros Htok Hinfo Hfind.
  destruct (findOne_googleId_updateOne (p_id data) (db w) u
              (callback_assign tokens u) Hfind) as (d' & Hup & Hf' & Hlen).
  { apply callback_assign_id. }
  { rewrite callback_assign_googleId.
    by apply findOne_googleId_Some in Hfind as (_ & _ & ? & _). }
  exists d'. split_and!; [done..|].
  unfold googleCallback. run_handler. fold code.
  rewrite Htok. cbn. rewrite Hinfo. cbn. rewrite Hfind. cbn.
  rewrite Hup. cbn.
  rewrite callback_assign_id, (proj1 (callback_assign_profile tokens u)).
  unfold with_db. cbn. by rewrite <- app_assoc.
Qed.

(** What a run of the callback, accepted or not, does to the collection:
    nothing, one insertion of a new external id, or one replacement. *)
Lemma googleCallback_cases :
  let w' := (googleCallback P req w).2 in
  (db w' = db w ∧ next_id w' = next_id w) ∨
  (∃ tokens data,
      getToken P (trace w) code = inr tokens ∧
      findOne_googleId (p_id data) (db w) = None ∧
      db w' = db w ++ [callback_create data tokens (next_id w)] ∧
      next_id w' = S (next_id w)) ∨
  (∃ tokens data u,
      getToken P (trace w) code = inr tokens ∧
      findOne_googleId (p_id data) (db w) = Some u ∧
      updateOne (callback_assign tokens u) (db w) = Some (db w') ∧
      next_id w' = next_id w).
Proof.
  unfold googleCallback. run_handler. fold code.
  destruct (getToken P (trace w) code) as [e|tokens] eqn:Htok; cbn;
    [by left|].
  destruct (userinfo_get P _ _) as [e|data]; cbn; [by left|].
  destruct (findOne_googleId (p_id data) (db w)) as [u|] eqn:Hfind; cbn.
  - destruct (updateOne _ (db w)) as [d'|] eqn:Hup; cbn; [|by left].
    right; right. by exists tokens, data, u.
  - right; left. by exists tokens, data.
Qed.

(** The refresh handler never writes the collection. *)
Lemma refreshToken_db :
  db (refreshToken P req w).2 = db w ∧
  next_id (refreshToken P req w).2 = next_id w.
Proof.
  unfold refreshToken, refreshToken_body. fold token.
  destruct (Js.truthy token); cbn [negb]; run_handler; [|done].
  cbn. by destruct (refreshAccessToken P _ _).
Qed.

(** A refresh with a usable token: one call to the provider, whose answer
    decides between the JSON response and [next(error)]. *)
Lemma refreshToken_run :
  Js.truthy token = true →
  refreshToken P req w =
  (match refreshAccessToken P (trace w) (refresh_credentials token) with
   | inl e => Next e
   | inr credentials =>
       Json 200 {[ "accessToken" := Js.Str (access_token credentials);
                   "expiryDate" := Js.of_number (expiry_date credentials) ]}
   end,
   {| db := db w;
      client := refresh_credentials token;
      trace := trace w ++ [RefreshAccessToken (refresh_credentials token)];
      next_id := next_id w |}).
Proof.
  intros Ht. unfold refreshToken, refreshToken_body. fold token.
  rewrite Ht. cbn [negb]. run_handler. cbn.
  by destruct (refreshAccessToken P _ _).
Qed.

(** [setUserCredentials] for a stored user: the stored token pair goes
    into the shared client; nothing is called and nothing is checked. *)
Lemma setUserCredentials_found u :
  findById (user_id req) (db w) = Some u →
  setUserCredentials (user_id req) w = (Ok u, with_client (stored_credentials u) w).
Proof. intros H. unfold setUserCredentials. run_handler. by rewrite H. Qed.

Lemma setUserCredentials_missing :
  findById (user_id req) (db w) = None →
  setUserCredentials (user_id req) w = (Throw (JsError "User not found"), w).
Proof. intros H. unfold setUserCredentials. run_handler. by rewrite H. Qed.

End Runs.

(** ** The store stays well formed *)

Lemma googleCallback_store_ok (P : Provider) (req : Req) (w : World) :
  store_ok w → store_ok (AuthController.googleCallback P req w).2.
Proof.
  intros (Hid & Hg & Hfresh). unfold store_ok.
  destruct (googleCallback_cases P req w)
    as [[Hd Hn]|[(tokens & data & _ & Hnone & Hd & Hn)
                |(tokens & data & u & _ & Hfind & Hup & Hn)]].
  - by rewrite Hd, Hn.
  - rewrite Hd, Hn, !fmap_app. cbn. split_and!.
    + apply NoDup_app. split_and!; [done| |apply NoDup_singleton].
      intros x Hx ->%list_elem_of_singleton.
      apply list_elem_of_fmap in Hx as (v & Hv & Hin).
      rewrite Forall_forall in Hfresh. specialize (Hfresh v Hin). lia.
    + apply NoDup_app. split_and!; [done| |apply NoDup_singleton].
      intros x Hx ->%list_elem_of_singleton.
      by apply findOne_googleId_None in Hnone.
    + apply Forall_app. split; [|by repeat constructor; cbn; lia].
      eapply Forall_impl; [exact Hfresh|]. cbn. intros; lia.
  - apply findOne_googleId_Some in Hfind as (i & Hi & Hgu & _).
    rewrite (updateOne_unique _ _ i u Hid Hi) in Hup
      by apply callback_assign_id.
    injection Hup as <-. rewrite Hn.
    rewrite (fmap_insert_same _id _ i u) by
      (done || apply callback_assign_id).
    rewrite (fmap_insert_same googleId _ i u) by
      (done || apply callback_assign_googleId).
    split_and!; [done..|].
    apply Forall_insert; [done|].
    rewrite callback_assign_id.
    rewrite Forall_forall in Hfresh. apply Hfresh.
    apply list_elem_of_lookup. eauto.
Qed.

Lemma refreshToken_store_ok (P : Provider) (req : Req) (w : World) :
  store_ok w → store_ok (AuthController.refreshToken P req w).2.
Proof.
  unfold store_ok. by destruct (refreshToken_db P req w) as [-> ->].
Qed.

(** Every world reached from the empty one by logins and refreshes is well
    formed: in particular no two records share an external id. *)
Lemma run_store_ok (P : Provider) (ops : list Op) (w : World) :
  store_ok w → store_ok (run P ops w).
Proof.
  unfold run. revert w. induction ops as [|op ops IH]; intros w Hw; [done|].
  cbn. apply IH. destruct op; cbn.
  - by apply googleCallback_store_ok.
  - by apply refreshToken_store_ok.
Qed.

Lemma empty_store_ok : store_ok Scenario.empty.
Proof. unfold store_ok. cbn. split_and!; constructor. Qed.

Lemma first_store_ok : store_ok Scenario.first.
Proof.
  unfold store_ok. cbn.
  split_and!; repeat constructor; try apply not_elem_of_nil.
Qed.

(** The first login of the scenario creates the one record of [first]. *)
Example first_login :
  AuthController.googleCallback Scenario.provider (Scenario.request ∅) Scenario.empty
  = (CookieRedirect "token" (Signed {| jwt_id := 0; jwt_email := "a@x.com" |})
                    true "/auth/profile",
     Scenario.first).
Proof. vm_compute. reflexivity. Qed.

(** * The claims *)

(** ** Credentials handed to the spreadsheet API *)

(** C1, as stated, fails: the stored access token of [ann] expired at 1000;
    at time 2000 [createSpreadSheet] calls the spreadsheet API with exactly
    that stored token, and no refresh precedes the call. *)
Lemma createSpreadSheet_expired_no_refresh :
  expired 2000 Scenario.ann ∧
  findById 0 (db Scenario.first) = Some Scenario.ann ∧
  trace (SheetController.createSpreadSheet
           Scenario.provider (Scenario.request ∅) Scenario.first).2
  = trace Scenario.first
    ++ [SpreadsheetsCreate (stored_credentials Scenario.ann) (Js.Str "New Sheet")] ∧
  ¬ refresh_precedes_api
      (trace (SheetController.createSpreadSheet
                Scenario.provider (Scenario.request ∅) Scenario.first).2).
Proof.
  split_and!.
  - exists 1000. split; [reflexivity | lia].
  - reflexivity.
  - vm_compute. reflexivity.
  - intros H.
    destruct (H 2%nat (SpreadsheetsCreate (stored_credentials Scenario.ann)
                                          (Js.Str "New Sheet")))
      as (j & r & Hj & Hr & Hrefresh).
    + vm_compute. reflexivity.
    + cbn. eauto.
    + destruct j as [|[|j]]; [| |lia];
        vm_compute in Hr; injection Hr as <-; discriminate Hrefresh.
Qed.

(** C1 (amended): for a stored user, whatever [tokenExpiry] holds,
    [setUserCredentials] neither checks the expiry nor attempts a refresh:
    it calls nothing and leaves the shared client with exactly the stored
    access token and refresh token, without expiry date.  The first call of
    the handler that awaited it is a spreadsheet API call issued with that
    stored pair.  What the client library does once the provider has refused
    a call is not claimed. *)
Theorem setUserCredentials_no_refresh
    (P : Provider) (req : Req) (w : World) (u : User)
    (handler : Req → World → Response * World) :
  findById (user_id req) (db w) = Some u →
  handler ∈ [SheetController.createSpreadSheet P;
             SheetController.deleteSheet P;
             SheetController.sortSheetRange P] →
  SheetController.setUserCredentials (user_id req) w
  = (Ok u,
     {| db := db w;
        client := {| cred_access_token := Some (accessToken u);
                     cred_refresh_token := Js.of_string (refreshToken u);
                     cred_expiry_date := None |};
        trace := trace w;
        next_id := next_id w |}) ∧
  ∃ first later,
    trace (handler req w).2 = trace w ++ first :: later ∧
    api_auth first = Some (stored_credentials u).
Proof.
  intros Hu Hin.
  pose proof (setUserCredentials_found req w u Hu) as Hset.
  split; [exact Hset|].
  rewrite !elem_of_cons, elem_of_nil in Hin.
  destruct Hin as [->|[->|[->|[]]]].
  - unfold SheetController.createSpreadSheet, try_next, mbind, M_bind.
    rewrite Hset. run_handler. cbn.
    eexists _, []. by destruct (spreadsheets_create P _ _ _).
  - unfold SheetController.deleteSheet, try_next, mbind, M_bind.
    rewrite Hset. run_handler. cbn.
    destruct (spreadsheets_get P _ _ _) as [e|sheets]; cbn.
    { by eexists _, []. }
    destruct (List.find _ sheets) as [sheet|]; cbn.
    + exists (SpreadsheetsGet (stored_credentials u) (Js.get (params req) "sheetId")).
      eexists [_]. split; [|done].
      destruct (spreadsheets_batchUpdate P _ _ _); cbn;
        by rewrite <- app_assoc.
    + by eexists _, [].
  - unfold SheetController.sortSheetRange, try_next, mbind, M_bind.
    rewrite Hset. run_handler. cbn.
    eexists _, []. by destruct (spreadsheets_batchUpdate P _ _ _).
Qed.

(** C1 (amended) at the record of the scenario, whose access token expired
    at 1000. *)
Lemma setUserCredentials_no_refresh_witness :
  tokenExpiry Scenario.ann = Some 1000 ∧
  SheetController.setUserCredentials (user_id (Scenario.request ∅)) Scenario.first
  = (Ok Scenario.ann,
     {| db := db Scenario.first;
        client := {| cred_access_token := Some (accessToken Scenario.ann);
                     cred_refresh_token := Js.of_string (refreshToken Scenario.ann);
                     cred_expiry_date := None |};
        trace := trace Scenario.first;
        next_id := next_id Scenario.first |}) ∧
  ∃ first later,
    trace (SheetController.createSpreadSheet
             Scenario.provider (Scenario.request ∅) Scenario.first).2
    = trace Scenario.first ++ first :: later ∧
    api_auth first = Some (stored_credentials Scenario.ann).
Proof.
  split; [reflexivity|].
  apply (setUserCredentials_no_refresh Scenario.provider).
  - reflexivity.
  - apply elem_of_cons. left. reflexivity.
Defined.

(** ** Repeat logins *)

(** C2: when the stored record of an external id holds a refresh token and
    the provider omits the refresh token at a later login of that external
    id, the login succeeds and the stored record still holds the same
    refresh token. *)
Theorem googleCallback_keeps_refreshToken
    (P : Provider) (req : Req) (w : World)
    (tokens : Tokens) (data : Profile) (u : User) (r : string) :
  getToken P (trace w) (Js.get (query req) "code") = inr tokens →
  userinfo_get P (trace w ++ [GetToken (Js.get (query req) "code")])
               (credentials_of_tokens tokens) = inr data →
  findOne_googleId (p_id data) (db w) = Some u →
  refreshToken u = Some r →
  refresh_token tokens = None →
  ∃ u', findOne_googleId (p_id data) (db (AuthController.googleCallback P req w).2)
          = Some u'
        ∧ _id u' = _id u
        ∧ refreshToken u' = Some r.
Proof.
  intros Htok Hinfo Hfind Hr Homit.
  destruct (googleCallback_existing P req w tokens data u Htok Hinfo Hfind)
    as (d' & _ & Hf' & _ & ->).
  exists (AuthController.callback_assign tokens u). cbn. split_and!; [done|..].
  - apply callback_assign_id.
  - by rewrite callback_assign_refreshToken, Homit.
Qed.

(** C2 at the second login of the scenario: [R1] survives. *)
Lemma googleCallback_keeps_refreshToken_witness :
  ∃ u', findOne_googleId "g1"
          (db (AuthController.googleCallback
                 Scenario.provider (Scenario.request ∅) Scenario.first).2)
          = Some u'
        ∧ _id u' = 0%nat
        ∧ refreshToken u' = Some "R1".
Proof.
  apply (googleCallback_keeps_refreshToken
           Scenario.provider (Scenario.request ∅) Scenario.first
           (mkTokens "A2" None (Some 2000))
           (mkProfile "g1" "b@x.com" "Bea" "bea.png")
           Scenario.ann "R1");
    reflexivity.
Defined.




(** ** Token refresh *)

(** C4 does not hold of the code: in the scenario the record of [ann] holds
    the submitted refresh token [R1] and the provider accepts the refresh
    with [A3 / 3000]; the handler answers with the new pair and assigns it
    to the document in memory, yet the collection still holds the record
    with [A1 / 1000]: the handler never saves the document. *)
Theorem refreshToken_not_persisted :
  let req := Scenario.request {[ "refreshToken" := Js.Str "R1" ]} in
  findOne_refreshToken (Js.Str "R1") (db Scenario.first) = Some Scenario.ann ∧
  (AuthController.refreshToken_body Scenario.provider req Scenario.first).1
  = Ok (Some (AuthController.refresh_assign (mkTokens "A3" None (Some 3000))
                                            Scenario.ann),
        Json 200 {[ "accessToken" := Js.Str "A3"; "expiryDate" := Js.Num 3000 ]}) ∧
  (AuthController.refreshToken Scenario.provider req Scenario.first).1
  = Json 200 {[ "accessToken" := Js.Str "A3"; "expiryDate" := Js.Num 3000 ]} ∧
  db (AuthController.refreshToken Scenario.provider req Scenario.first).2
  = [Scenario.ann] ∧
  accessToken Scenario.ann = "A1" ∧ tokenExpiry Scenario.ann = Some 1000.
Proof. cbv zeta. split_and!; vm_compute; reflexivity. Qed.

(** C5: a refresh request whose body has no [refreshToken] field is answered
    with status 400, and the world is left as it was: no call to the
    provider is recorded and the shared client is not touched. *)
Theorem refreshToken_missing_400 (P : Provider) (req : Req) (w : World) :
  body req !! "refreshToken" = None →
  AuthController.refreshToken P req w
  = (Json 400 {[ "message " := Js.Str "Refresh token missing." ]}, w).
Proof.
  intros Habs.
  unfold AuthController.refreshToken, AuthController.refreshToken_body.
  by rewrite (get_absent _ _ Habs).
Qed.

(** C5 on an empty body. *)
Lemma refreshToken_missing_400_witness :
  AuthController.refreshToken Scenario.provider (Scenario.request ∅) Scenario.first
  = (Json 400 {[ "message " := Js.Str "Refresh token missing." ]}, Scenario.first).
Proof. apply refreshToken_missing_400. reflexivity. Defined.

(** C6: when the provider rejects the refresh with an error [e], the handler
    passes [e] on to the error boundary and the collection is unchanged. *)
Theorem refreshToken_rejected
    (P : Provider) (req : Req) (w : World) (e : Err) :
  Js.truthy (Js.get (body req) "refreshToken") = true →
  refreshAccessToken P (trace w)
    (refresh_credentials (Js.get (body req) "refreshToken")) = inl e →
  (AuthController.refreshToken P req w).1 = Next e ∧
  db (AuthController.refreshToken P req w).2 = db w.
Proof.
  intros Ht Hrej. rewrite (refreshToken_run P req w Ht), Hrej. done.
Qed.

(** C6 for a token the provider of the scenario does not know. *)
Lemma refreshToken_rejected_witness :
  let req := Scenario.request {[ "refreshToken" := Js.Str "R0" ]} in
  (AuthController.refreshToken Scenario.provider req Scenario.first).1
  = Next (Rejected 400 "invalid_grant") ∧
  db (AuthController.refreshToken Scenario.provider req Scenario.first).2
  = db Scenario.first.
Proof.
  apply (refreshToken_rejected Scenario.provider
           (Scenario.request {[ "refreshToken" := Js.Str "R0" ]}) Scenario.first
           (Rejected 400 "invalid_grant"));
    reflexivity.
Defined.

(** C8: when the provider accepts the refresh, the handler answers with the
    new access token and expiry date; the collection plays no part in the
    answer, so it is the same whether or not a record holds the submitted
    refresh token. *)
Theorem refreshToken_accepted_response
    (P : Provider) (req : Req) (w : World) (credentials : Tokens) :
  Js.truthy (Js.get (body req) "refreshToken") = true →
  refreshAccessToken P (trace w)
    (refresh_credentials (Js.get (body req) "refreshToken")) = inr credentials →
  (AuthController.refreshToken P req w).1
  = Json 200 {[ "accessToken" := Js.Str (access_token credentials);
                "expiryDate" := Js.of_number (expiry_date credentials) ]}.
Proof.
  intros Ht Hacc. rewrite (refreshToken_run P req w Ht), Hacc. done.
Qed.

(** C8 in a world with no record at all. *)
Lemma refreshToken_accepted_response_witness :
  findOne_refreshToken (Js.Str "R1") (db Scenario.empty) = None ∧
  (AuthController.refreshToken
     Scenario.provider (Scenario.request {[ "refreshToken" := Js.Str "R1" ]})
     Scenario.empty).1
  = Json 200 {[ "accessToken" := Js.Str "A3"; "expiryDate" := Js.Num 3000 ]}.
Proof.
  split; [reflexivity|].
  apply (refreshToken_accepted_response Scenario.provider
           (Scenario.request {[ "refreshToken" := Js.Str "R1" ]}) Scenario.empty
           (mkTokens "A3" None (Some 3000)));
    reflexivity.
Defined.



(** ** Spreadsheet handlers *)

(** C9: the sort order forwarded to the provider is [DESCENDING] exactly
    when the [order] field is the string [DESCENDING] and [ASCENDING] for
    any other value, an absent field included.  For a stored user the
    handler sends exactly one batch update, which carries that sort order;
    without a stored user it sends nothing. *)
Theorem sortSheetRange_sortOrder (P : Provider) (req : Req) (w : World) :
  let order := Js.get (body req) "order" in
  let sortColumnIndex := Js.get (body req) "sortColumnIndex" in
  let forwarded :=
    if decide (order = Js.Str "DESCENDING") then "DESCENDING" else "ASCENDING" in
  SheetController.sortOrder_of order = forwarded ∧
  (forwarded = "ASCENDING" ∨ forwarded = "DESCENDING") ∧
  match findById (user_id req) (db w) with
  | Some u =>
      trace (SheetController.sortSheetRange P req w).2
      = trace w ++
        [SpreadsheetsBatchUpdate (stored_credentials u)
           {| spreadsheetId := Js.get (params req) "sheetId";
              requests := Some [SortRange
                {| range_sheetId := Js.get (body req) "sheetName";
                   startRowIndex := 1;
                   startColumnIndex := 0;
                   endColumnIndex := Js.plus_one sortColumnIndex |}
                [ {| dimensionIndex := sortColumnIndex; sortOrder := forwarded |} ] ];
              requestBody := None |}]
  | None => trace (SheetController.sortSheetRange P req w).2 = trace w
  end.
Proof.
  intros order sortColumnIndex forwarded.
  assert (SheetController.sortOrder_of order = forwarded) as Hso.
  { unfold SheetController.sortOrder_of, forwarded.
    destruct (decide (order = Js.Str "DESCENDING")) as [Heq|Hne].
    - by rewrite (proj2 (strict_eq_Str_r _ _) Heq).
    - destruct (Js.strict_eq order (Js.Str "DESCENDING")) eqn:Hs; [|done].
      by apply strict_eq_Str_r in Hs. }
  split_and!; [done| |].
  - unfold forwarded. destruct (decide _); eauto.
  - unfold SheetController.sortSheetRange, try_next, mbind, M_bind.
    destruct (findById (user_id req) (db w)) as [u|] eqn:Hu.
    + rewrite (setUserCredentials_found req w u Hu). run_handler. cbn.
      fold order. rewrite Hso.
      by destruct (spreadsheets_batchUpdate P _ _ _).
    + by rewrite (setUserCredentials_missing req w Hu).
Qed.

(** An absent [order] field is forwarded as [ASCENDING]. *)
Example sortOrder_of_absent (req : Req) :
  body req !! "order" = None →
  SheetController.sortOrder_of (Js.get (body req) "order") = "ASCENDING".
Proof. intros H. by rewrite (get_absent _ _ H). Qed.

Lemma find_title_None (sheetName : Js.value) (sheets : list Sheet) :
  Forall (λ s, Js.Str (title s) ≠ sheetName) sheets →
  List.find (λ s, Js.strict_eq (Js.Str (title s)) sheetName) sheets = None.
Proof.
  induction 1 as [|s sheets Hs _ IH]; [done|]. cbn [List.find].
  destruct (Js.strict_eq (Js.Str (title s)) sheetName) eqn:Heq; [|exact IH].
  apply strict_eq_Str_l in Heq. by destruct Hs.
Qed.

(** C10: for a stored user and a spreadsheet whose metadata the provider
    returns, when no sheet has the requested name as its title the handler
    answers 404 with [Sheet not found]; the only call made is the metadata
    read, so no delete request is sent. *)
Theorem deleteSheet_not_found
    (P : Provider) (req : Req) (w : World) (u : User) (sheets : list Sheet) :
  findById (user_id req) (db w) = Some u →
  spreadsheets_get P (trace w) (stored_credentials u)
                   (Js.get (params req) "sheetId") = inr sheets →
  Forall (λ s, Js.Str (title s) ≠ Js.get (body req) "sheetName") sheets →
  SheetController.deleteSheet P req w
  = (Json 404 {[ "message" := Js.Str "Sheet not found" ]},
     {| db := db w;
        client := stored_credentials u;
        trace := trace w ++ [SpreadsheetsGet (stored_credentials u)
                                             (Js.get (params req) "sheetId")];
        next_id := next_id w |}).
Proof.
  intros Hu Hget Hnone.
  unfold SheetController.deleteSheet, try_next, mbind, M_bind.
  rewrite (setUserCredentials_found req w u Hu). run_handler.
  cbn -[List.find Js.strict_eq]. rewrite Hget. cbn -[List.find Js.strict_eq].
  by rewrite (find_title_None _ _ Hnone).
Qed.

(** C10 for the sheet name [Totals], which the spreadsheet of the scenario
    does not have. *)
Lemma deleteSheet_not_found_witness :
  SheetController.deleteSheet
    Scenario.provider (Scenario.request {[ "sheetName" := Js.Str "Totals" ]})
    Scenario.first
  = (Json 404 {[ "message" := Js.Str "Sheet not found" ]},
     {| db := db Scenario.first;
        client := stored_credentials Scenario.ann;
        trace := trace Scenario.first
                 ++ [SpreadsheetsGet (stored_credentials Scenario.ann) (Js.Str "S1")];
        next_id := next_id Scenario.first |}).
Proof.
  apply (deleteSheet_not_found
           Scenario.provider (Scenario.request {[ "sheetName" := Js.Str "Totals" ]})
           Scenario.first Scenario.ann [mkSheet "Sheet1" 0; mkSheet "Data" 7]).
  - reflexivity.
  - reflexivity.
  - repeat constructor; vm_compute; discriminate.
Defined.

(** * Further properties of the handlers *)

(** ** Lookups by [_id] *)

(** With unique [_id]s, [findById] returns the record stored under the id. *)
Lemma findById_lookup (d : list User) (i : nat) (u : User) :
  NoDup (_id <$> d) → d !! i = Some u → findById (_id u) d = Some u.
Proof.
  intros Hnd Hi. unfold findById. apply fmap_Some. exists (i, u).
  split; [|done]. apply list_find_Some. split_and!; [done..|].
  intros j v Hj Hlt Heq.
  assert (j = i) as ->; [|lia].
  apply (NoDup_lookup (_id <$> d) j i (_id u) Hnd).
  - rewrite list_lookup_fmap, Hj. cbn. by rewrite Heq.
  - by rewrite list_lookup_fmap, Hi.
Qed.

Lemma findOne_googleId_snoc (g : string) (d : list User) (u : User) :
  findOne_googleId g d = None → googleId u = g →
  findOne_googleId g (d ++ [u]) = Some u.
Proof.
  intros Hnone Hg. apply findOne_googleId_Some. exists (length d).
  split_and!; [by apply list_lookup_middle|done|].
  intros j v Hj Hlt Hv. apply findOne_googleId_None in Hnone. apply Hnone.
  rewrite lookup_app_l in Hj by done.
  apply list_elem_of_fmap. exists v. split; [done|].
  apply list_elem_of_lookup. eauto.
Qed.

(** The first member of a list that passes a test, by position. *)
Lemma find_first {X : Type} (f : X → bool) (l1 l2 : list X) (x : X) :
  Forall (λ y, f y = false) l1 → f x = true →
  List.find f (l1 ++ x :: l2) = Some x.
Proof.
  intros Hl1 Hx. induction Hl1 as [|y l1 Hy _ IH]; cbn [app List.find].
  - by rewrite Hx.
  - by rewrite Hy.
Qed.

(** ** Runs of the login *)
Section LoginRuns.
Import AuthController.
Variables (P : Provider) (req : Req) (w : World).

Let code := Js.get (query req) "code".

(** A login the provider accepts for an external id without record. *)
Lemma googleCallback_created tokens data :
  getToken P (trace w) code = inr tokens →
  userinfo_get P (trace w ++ [GetToken code]) (credentials_of_tokens tokens)
    = inr data →
  findOne_googleId (p_id data) (db w) = None →
  googleCallback P req w =
  (CookieRedirect "token"
     (generateToken {| jwt_id := next_id w; jwt_email := p_email data |})
     true "/auth/profile",
   {| db := db w ++ [callback_create data tokens (next_id w)];
      client := credentials_of_tokens tokens;
      trace := trace w ++ [GetToken code;
                           UserinfoGet (credentials_of_tokens tokens)];
      next_id := S (next_id w) |}).
Proof.
  intros Htok Hinfo Hfind.
  unfold googleCallback. run_handler. fold code.
  rewrite Htok. cbn. rewrite Hinfo. cbn. rewrite Hfind. cbn.
  unfold with_db, insertOne. cbn. by rewrite <- app_assoc.
Qed.

(** After a login the provider accepts, in a well-formed store, the id in
    the session cookie is the [_id] of a stored record that [findById]
    returns; the record holds the new access token, and its name is the
    provider's for a new external id and the stored one otherwise. *)
Lemma googleCallback_session tokens data :
  store_ok w →
  getToken P (trace w) code = inr tokens →
  userinfo_get P (trace w ++ [GetToken code]) (credentials_of_tokens tokens)
    = inr data →
  ∃ u', (googleCallback P req w).1
        = CookieRedirect "token"
            (generateToken {| jwt_id := _id u'; jwt_email := email u' |})
            true "/auth/profile" ∧
        findById (_id u') (db (googleCallback P req w).2) = Some u' ∧
        trace (googleCallback P req w).2
        = trace w ++ [GetToken code; UserinfoGet (credentials_of_tokens tokens)] ∧
        googleId u' = p_id data ∧
        accessToken u' = access_token tokens ∧
        name u' = match findOne_googleId (p_id data) (db w) with
                  | Some u => name u
                  | None => p_name data
                  end.
Proof.
  intros Hok Htok Hinfo.
  pose proof (googleCallback_store_ok P req w Hok) as (Hid' & _ & _).
  destruct (findOne_googleId (p_id data) (db w)) as [u|] eqn:Hfind.
  - destruct (googleCallback_existing P req w tokens data u Htok Hinfo Hfind)
      as (d' & Hup & _ & _ & Hrun).
    rewrite Hrun in Hid' |- *. cbn [fst snd db trace] in *.
    apply findOne_googleId_Some in Hfind as (i & Hi & Hg & _).
    destruct Hok as (Hid & _ & _).
    rewrite (updateOne_unique _ _ i u Hid Hi) in Hup by apply callback_assign_id.
    injection Hup as <-.
    exists (callback_assign tokens u).
    rewrite callback_assign_id, (proj1 (callback_assign_profile tokens u)).
    split_and!; [done| |done|..].
    + rewrite <- (callback_assign_id tokens u).
      apply (findById_lookup _ i); [done|].
      apply list_lookup_insert_eq. by eapply lookup_lt_Some.
    + by rewrite callback_assign_googleId.
    + apply callback_assign_tokens.
    + apply callback_assign_profile.
  - rewrite (googleCallback_created tokens data Htok Hinfo Hfind) in Hid' |- *.
    cbn [fst snd db trace] in *.
    exists (callback_create data tokens (next_id w)). cbn.
    split_and!; [done| |done..].
    change (next_id w) with (_id (callback_create data tokens (next_id w))) at 1.
    apply (findById_lookup _ (length (db w))); [done|].
    by apply list_lookup_middle.
Qed.

End LoginRuns.

(** ** Logins *)

(** X1: a login the provider accepts for an external id that has no record
    appends exactly one record, built from the profile and the tokens under
    a fresh [_id], leaves the other records alone, and names the new [_id]
    in the session cookie; a lookup by that external id then returns the new
    record. *)
Theorem googleCallback_first_login
    (P : Provider) (req : Req) (w : World) (tokens : Tokens) (data : Profile) :
  getToken P (trace w) (Js.get (query req) "code") = inr tokens →
  userinfo_get P (trace w ++ [GetToken (Js.get (query req) "code")])
               (credentials_of_tokens tokens) = inr data →
  findOne_googleId (p_id data) (db w) = None →
  let u := {| _id := next_id w; googleId := p_id data; email := p_email data;
              name := p_name data; picture := p_picture data;
              accessToken := access_token tokens;
              refreshToken := refresh_token tokens;
              tokenExpiry := AuthController.expiry_or_null (expiry_date tokens) |} in
  (AuthController.googleCallback P req w).1
  = CookieRedirect "token" (Signed {| jwt_id := next_id w; jwt_email := p_email data |})
                   true "/auth/profile" ∧
  db (AuthController.googleCallback P req w).2 = db w ++ [u] ∧
  next_id (AuthController.googleCallback P req w).2 = S (next_id w) ∧
  findOne_googleId (p_id data) (db (AuthController.googleCallback P req w).2) = Some u.
Proof.
  intros Htok Hinfo Hfind u.
  rewrite (googleCallback_created P req w tokens data Htok Hinfo Hfind).
  cbn [fst snd db next_id]. split_and!; [done..|].
  by apply findOne_googleId_snoc.
Qed.

(** X1 at the first login of the scenario. *)
Lemma googleCallback_first_login_witness :
  (AuthController.googleCallback Scenario.provider (Scenario.request ∅) Scenario.empty).1
  = CookieRedirect "token" (Signed {| jwt_id := 0; jwt_email := "a@x.com" |})
                   true "/auth/profile" ∧
  db (AuthController.googleCallback Scenario.provider (Scenario.request ∅)
                                    Scenario.empty).2
  = [] ++ [Scenario.ann] ∧
  next_id (AuthController.googleCallback Scenario.provider (Scenario.request ∅)
                                         Scenario.empty).2 = 1%nat ∧
  findOne_googleId "g1"
    (db (AuthController.googleCallback Scenario.provider (Scenario.request ∅)
                                       Scenario.empty).2)
  = Some Scenario.ann.
Proof.
  apply (googleCallback_first_login
           Scenario.provider (Scenario.request ∅) Scenario.empty
           (mkTokens "A1" (Some "R1") (Some 1000))
           (mkProfile "g1" "a@x.com" "Ann" "ann.png"));
    reflexivity.
Defined.

(** X2: when the provider rejects the authorization code, the error goes to
    [next]; the collection and the shared client are as before and the
    profile is never asked for. *)
Theorem googleCallback_exchange_rejected
    (P : Provider) (req : Req) (w : World) (e : Err) :
  getToken P (trace w) (Js.get (query req) "code") = inl e →
  AuthController.googleCallback P req w
  = (Next e,
     {| db := db w; client := client w;
        trace := trace w ++ [GetToken (Js.get (query req) "code")];
        next_id := next_id w |}).
Proof.
  intros Hrej. unfold AuthController.googleCallback. run_handler.
  by rewrite Hrej.
Qed.

(** A provider that rejects every code and every refresh. *)
Lemma googleCallback_exchange_rejected_witness :
  let deny := mkProvider (λ _ _, inl (Rejected 400 "invalid_grant"))
                         (userinfo_get Scenario.provider)
                         (refreshAccessToken Scenario.provider)
                         (spreadsheets_create Scenario.provider)
                         (spreadsheets_get Scenario.provider)
                         (spreadsheets_batchUpdate Scenario.provider) in
  AuthController.googleCallback deny (Scenario.request ∅) Scenario.first
  = (Next (Rejected 400 "invalid_grant"),
     {| db := db Scenario.first; client := client Scenario.first;
        trace := trace Scenario.first ++ [GetToken (Js.Str "c0de")];
        next_id := next_id Scenario.first |}).
Proof.
  intros deny.
  apply (googleCallback_exchange_rejected deny (Scenario.request ∅) Scenario.first).
  reflexivity.
Defined.

(** X3: when the code is accepted and the profile request fails, the error
    goes to [next] and no record is written; the shared client, however,
    keeps the credentials of the new tokens. *)
Theorem googleCallback_profile_rejected
    (P : Provider) (req : Req) (w : World) (tokens : Tokens) (e : Err) :
  getToken P (trace w) (Js.get (query req) "code") = inr tokens →
  userinfo_get P (trace w ++ [GetToken (Js.get (query req) "code")])
               (credentials_of_tokens tokens) = inl e →
  AuthController.googleCallback P req w
  = (Next e,
     {| db := db w; client := credentials_of_tokens tokens;
        trace := trace w ++ [GetToken (Js.get (query req) "code");
                             UserinfoGet (credentials_of_tokens tokens)];
        next_id := next_id w |}).
Proof.
  intros Htok Hrej. unfold AuthController.googleCallback. run_handler.
  rewrite Htok. cbn. rewrite Hrej. unfold log, with_client. cbn.
  by rewrite <- app_assoc.
Qed.

(** X3 for a provider whose profile endpoint is down. *)
Lemma googleCallback_profile_rejected_witness :
  let down := mkProvider (getToken Scenario.provider)
                         (λ _ _, inl (Rejected 503 "unavailable"))
                         (refreshAccessToken Scenario.provider)
                         (spreadsheets_create Scenario.provider)
                         (spreadsheets_get Scenario.provider)
                         (spreadsheets_batchUpdate Scenario.provider) in
  let tokens := mkTokens "A1" (Some "R1") (Some 1000) in
  AuthController.googleCallback down (Scenario.request ∅) Scenario.empty
  = (Next (Rejected 503 "unavailable"),
     {| db := db Scenario.empty; client := credentials_of_tokens tokens;
        trace := trace Scenario.empty
                 ++ [GetToken (Js.Str "c0de");
                     UserinfoGet (credentials_of_tokens tokens)];
        next_id := next_id Scenario.empty |}).
Proof.
  intros down tokens.
  apply (googleCallback_profile_rejected down (Scenario.request ∅) Scenario.empty).
  - reflexivity.
  - reflexivity.
Defined.

(** X4: the session of a login opens the spreadsheet API with the token of
    that login.  In a well-formed store, after a login the provider
    accepts, [createSpreadSheet] called with the id of the session cookie
    makes its call with the access token the login obtained. *)
Theorem login_then_createSpreadSheet
    (P : Provider) (req : Req) (w : World) (tokens : Tokens) (data : Profile) :
  store_ok w →
  getToken P (trace w) (Js.get (query req) "code") = inr tokens →
  userinfo_get P (trace w ++ [GetToken (Js.get (query req) "code")])
               (credentials_of_tokens tokens) = inr data →
  ∃ jwt auth,
    (AuthController.googleCallback P req w).1
    = CookieRedirect "token" (Signed jwt) true "/auth/profile" ∧
    cred_access_token auth = Some (access_token tokens) ∧
    ∀ pr q b,
      trace (SheetController.createSpreadSheet P (mkReq (jwt_id jwt) pr q b)
               (AuthController.googleCallback P req w).2).2
      = trace (AuthController.googleCallback P req w).2
        ++ [SpreadsheetsCreate auth (Js.or (Js.get b "title") (Js.Str "New Sheet"))].
Proof.
  intros Hok Htok Hinfo.
  destruct (googleCallback_session P req w tokens data Hok Htok Hinfo)
    as (u' & Hres & Hby & _ & _ & Hacc & _).
  exists {| jwt_id := _id u'; jwt_email := email u' |}, (stored_credentials u').
  split_and!; [done|by cbn; rewrite Hacc|].
  cbn [jwt_id]. intros pr q b.
  unfold SheetController.createSpreadSheet, try_next, mbind, M_bind.
  rewrite (setUserCredentials_found (mkReq (_id u') pr q b) _ u' Hby).
  run_handler. cbn. by destruct (spreadsheets_create P _ _ _).
Qed.

(** X4 at the first login of the scenario. *)
Lemma login_then_createSpreadSheet_witness :
  ∃ jwt auth,
    (AuthController.googleCallback Scenario.provider (Scenario.request ∅)
                                   Scenario.empty).1
    = CookieRedirect "token" (Signed jwt) true "/auth/profile" ∧
    cred_access_token auth = Some "A1" ∧
    ∀ pr q b,
      trace (SheetController.createSpreadSheet Scenario.provider
               (mkReq (jwt_id jwt) pr q b)
               (AuthController.googleCallback Scenario.provider (Scenario.request ∅)
                                              Scenario.empty).2).2
      = trace (AuthController.googleCallback Scenario.provider (Scenario.request ∅)
                                             Scenario.empty).2
        ++ [SpreadsheetsCreate auth (Js.or (Js.get b "title") (Js.Str "New Sheet"))].
Proof.
  apply (login_then_createSpreadSheet
           Scenario.provider (Scenario.request ∅) Scenario.empty
           (mkTokens "A1" (Some "R1") (Some 1000))
           (mkProfile "g1" "a@x.com" "Ann" "ann.png")).
  - unfold store_ok. cbn. split_and!; constructor.
  - reflexivity.
  - reflexivity.
Defined.

(** X5: in every world reached from the empty one by logins and refreshes,
    whatever the provider answers, no two records share an [_id] and no two
    records share an external id. *)
Theorem reachable_store_unique (P : Provider) (ops : list Op) :
  NoDup (_id <$> db (run P ops Scenario.empty)) ∧
  NoDup (googleId <$> db (run P ops Scenario.empty)).
Proof.
  destruct (run_store_ok P ops Scenario.empty empty_store_ok) as (? & ? & _).
  done.
Qed.

(** ** Refreshes *)

(** X6: the refresh handler tests the submitted token for truthiness, so an
    empty string, [null], [false] or [0] is refused like an absent field:
    status 400, nothing called, nothing changed. *)
Theorem refreshToken_falsy_400 (P : Provider) (req : Req) (w : World) :
  Js.truthy (Js.get (body req) "refreshToken") = false →
  AuthController.refreshToken P req w
  = (Json 400 {[ "message " := Js.Str "Refresh token missing." ]}, w).
Proof.
  intros Hf.
  unfold AuthController.refreshToken, AuthController.refreshToken_body.
  by rewrite Hf.
Qed.

(** X6 for the empty string. *)
Lemma refreshToken_falsy_400_witness :
  AuthController.refreshToken Scenario.provider
    (Scenario.request {[ "refreshToken" := Js.Str EmptyString ]}) Scenario.first
  = (Json 400 {[ "message " := Js.Str "Refresh token missing." ]}, Scenario.first).
Proof. apply refreshToken_falsy_400. reflexivity. Defined.



(** X8: a refresh does not reach later spreadsheet calls.  After a refresh,
    accepted or not, [createSpreadSheet] for a stored user still calls the
    provider with the access token the record held before the refresh. *)
Theorem refresh_then_createSpreadSheet
    (P : Provider) (req req' : Req) (w : World) (u : User) :
  findById (user_id req') (db w) = Some u →
  trace (SheetController.createSpreadSheet P req'
           (AuthController.refreshToken P req w).2).2
  = trace (AuthController.refreshToken P req w).2
    ++ [SpreadsheetsCreate
          {| cred_access_token := Some (accessToken u);
             cred_refresh_token := Js.of_string (refreshToken u);
             cred_expiry_date := None |}
          (Js.or (Js.get (body req') "title") (Js.Str "New Sheet"))].
Proof.
  intros Hu. rewrite <- (proj1 (refreshToken_db P req w)) in Hu.
  unfold SheetController.createSpreadSheet, try_next, mbind, M_bind.
  rewrite (setUserCredentials_found req' _ u Hu). run_handler. cbn.
  by destruct (spreadsheets_create P _ _ _).
Qed.

(** X8 in the scenario: the provider hands out [A3] for [R1], and the next
    spreadsheet call still carries [A1]. *)
Lemma refresh_then_createSpreadSheet_witness :
  let req := Scenario.request {[ "refreshToken" := Js.Str "R1" ]} in
  (AuthController.refreshToken Scenario.provider req Scenario.first).1
  = Json 200 {[ "accessToken" := Js.Str "A3"; "expiryDate" := Js.Num 3000 ]} ∧
  trace (SheetController.createSpreadSheet Scenario.provider (Scenario.request ∅)
           (AuthController.refreshToken Scenario.provider req Scenario.first).2).2
  = trace (AuthController.refreshToken Scenario.provider req Scenario.first).2
    ++ [SpreadsheetsCreate
          {| cred_access_token := Some "A1";
             cred_refresh_token := Js.Str "R1";
             cred_expiry_date := None |}
          (Js.or (Js.get (body (Scenario.request ∅)) "title") (Js.Str "New Sheet"))].
Proof.
  split; [reflexivity|].
  apply (refresh_then_createSpreadSheet Scenario.provider
           (Scenario.request {[ "refreshToken" := Js.Str "R1" ]})
           (Scenario.request ∅) Scenario.first Scenario.ann).
  reflexivity.
Defined.

(** ** The spreadsheet handlers of the claims *)

(** X9: [createSpreadSheet], [deleteSheet] and [sortSheetRange] never write
    the collection and never hand out an [_id], whatever the request, the
    store and the provider's answers. *)
Theorem sheet_handlers_keep_store (P : Provider) (req : Req) (w : World) :
  (db (SheetController.createSpreadSheet P req w).2 = db w ∧
   next_id (SheetController.createSpreadSheet P req w).2 = next_id w) ∧
  (db (SheetController.deleteSheet P req w).2 = db w ∧
   next_id (SheetController.deleteSheet P req w).2 = next_id w) ∧
  (db (SheetController.sortSheetRange P req w).2 = db w ∧
   next_id (SheetController.sortSheetRange P req w).2 = next_id w).
Proof.
  unfold SheetController.createSpreadSheet, SheetController.deleteSheet,
    SheetController.sortSheetRange, try_next, mbind, M_bind.
  destruct (findById (user_id req) (db w)) as [u|] eqn:Hu.
  - rewrite (setUserCredentials_found req w u Hu). run_handler. cbn.
    split_and!.
    + by destruct (spreadsheets_create P _ _ _).
    + by destruct (spreadsheets_create P _ _ _).
    + destruct (spreadsheets_get P _ _ _) as [|sheets]; [done|]. cbn.
      destruct (List.find _ sheets); cbn; [|done].
      by destruct (spreadsheets_batchUpdate P _ _ _).
    + destruct (spreadsheets_get P _ _ _) as [|sheets]; [done|]. cbn.
      destruct (List.find _ sheets); cbn; [|done].
      by destruct (spreadsheets_batchUpdate P _ _ _).
    + by destruct (spreadsheets_batchUpdate P _ _ _).
    + by destruct (spreadsheets_batchUpdate P _ _ _).
  - by rewrite (setUserCredentials_missing req w Hu).
Qed.

(** X10: for a user id without record the three handlers end in
    [next(Error('User not found'))]; the provider is not called and the
    shared client keeps the credentials it had. *)
Theorem sheet_handlers_user_missing (P : Provider) (req : Req) (w : World) :
  findById (user_id req) (db w) = None →
  SheetController.createSpreadSheet P req w = (Next (JsError "User not found"), w) ∧
  SheetController.deleteSheet P req w = (Next (JsError "User not found"), w) ∧
  SheetController.sortSheetRange P req w = (Next (JsError "User not found"), w).
Proof.
  intros Hu.
  unfold SheetController.createSpreadSheet, SheetController.deleteSheet,
    SheetController.sortSheetRange, try_next, mbind, M_bind.
  by rewrite (setUserCredentials_missing req w Hu).
Qed.

(** X10 in the empty world. *)
Lemma sheet_handlers_user_missing_witness :
  SheetController.createSpreadSheet Scenario.provider (Scenario.request ∅) Scenario.empty
  = (Next (JsError "User not found"), Scenario.empty) ∧
  SheetController.deleteSheet Scenario.provider (Scenario.request ∅) Scenario.empty
  = (Next (JsError "User not found"), Scenario.empty) ∧
  SheetController.sortSheetRange Scenario.provider (Scenario.request ∅) Scenario.empty
  = (Next (JsError "User not found"), Scenario.empty).
Proof. apply sheet_handlers_user_missing. reflexivity. Defined.

(** X11: [createSpreadSheet] names the spreadsheet [New Sheet] whenever the
    [title] of the body is falsy (absent, empty, [null], [0], [false]); it
    answers with the id the provider returns, or passes the provider's
    rejection to [next]. *)
Theorem createSpreadSheet_default_title
    (P : Provider) (req : Req) (w : World) (u : User) :
  findById (user_id req) (db w) = Some u →
  Js.truthy (Js.get (body req) "title") = false →
  SheetController.createSpreadSheet P req w
  = (match spreadsheets_create P (trace w) (stored_credentials u) (Js.Str "New Sheet") with
     | inr id => Json 200 {[ "spreadsheetId" := id ]}
     | inl e => Next e
     end,
     {| db := db w; client := stored_credentials u;
        trace := trace w ++ [SpreadsheetsCreate (stored_credentials u)
                                                (Js.Str "New Sheet")];
        next_id := next_id w |}).
Proof.
  intros Hu Hfalsy.
  unfold SheetController.createSpreadSheet, try_next, mbind, M_bind.
  rewrite (setUserCredentials_found req w u Hu). run_handler. cbn.
  unfold Js.or. rewrite Hfalsy.
  by destruct (spreadsheets_create P _ _ _).
Qed.

(** X11 for an empty title. *)
Lemma createSpreadSheet_default_title_witness :
  SheetController.createSpreadSheet Scenario.provider
    (Scenario.request {[ "title" := Js.Str EmptyString ]}) Scenario.first
  = (Json 200 {[ "spreadsheetId" := Js.Str "sheet-1" ]},
     {| db := db Scenario.first; client := stored_credentials Scenario.ann;
        trace := trace Scenario.first
                 ++ [SpreadsheetsCreate (stored_credentials Scenario.ann)
                                        (Js.Str "New Sheet")];
        next_id := next_id Scenario.first |}).
Proof.
  apply (createSpreadSheet_default_title Scenario.provider
           (Scenario.request {[ "title" := Js.Str EmptyString ]})
           Scenario.first Scenario.ann);
    reflexivity.
Defined.

(** X12: when sheets carry the requested title, [deleteSheet] deletes the
    first of them: after the metadata read it sends one delete request,
    under [requestBody], for the [sheetId] of the first sheet with that
    title, and once the provider accepts it answers that the sheet was
    deleted. *)
Theorem deleteSheet_first_match
    (P : Provider) (req : Req) (w : World) (u : User)
    (before after : list Sheet) (sheet : Sheet) :
  findById (user_id req) (db w) = Some u →
  body req !! "sheetName" = Some (Js.Str (title sheet)) →
  spreadsheets_get P (trace w) (stored_credentials u)
                   (Js.get (params req) "sheetId") = inr (before ++ sheet :: after) →
  Forall (λ s, title s ≠ title sheet) before →
  let read := SpreadsheetsGet (stored_credentials u) (Js.get (params req) "sheetId") in
  let delete :=
    {| spreadsheetId := Js.get (params req) "sheetId";
       requests := None;
       requestBody := Some [DeleteSheet (sheetId sheet)] |} in
  spreadsheets_batchUpdate P (trace w ++ [read]) (stored_credentials u) delete = inr tt →
  SheetController.deleteSheet P req w
  = (Json 200 {[ "message" := Js.Str ("Sheet " +:+ title sheet
                                      +:+ " deleted successfully.") ]},
     {| db := db w; client := stored_credentials u;
        trace := trace w ++ [read; SpreadsheetsBatchUpdate (stored_credentials u) delete];
        next_id := next_id w |}).
Proof.
  intros Hu Hname Hget Hbefore read delete Hdel.
  assert (Js.get (body req) "sheetName" = Js.Str (title sheet)) as Hn
    by (unfold Js.get; by rewrite Hname).
  unfold SheetController.deleteSheet, try_next, mbind, M_bind.
  rewrite (setUserCredentials_found req w u Hu). run_handler.
  cbn -[List.find Js.strict_eq Js.get]. rewrite Hget, Hn.
  cbn -[List.find Js.strict_eq Js.get].
  rewrite (find_first _ before after sheet).
  - cbn -[Js.get]. fold read delete. rewrite Hdel.
    unfold log, with_client. cbn -[Js.get]. by rewrite <- app_assoc.
  - eapply Forall_impl; [exact Hbefore|]. cbn. intros s Hs.
    destruct (Js.strict_eq (Js.Str (title s)) (Js.Str (title sheet))) eqn:Heq;
      [|done].
    apply strict_eq_Str_l in Heq. congruence.
  - by apply strict_eq_Str_l.
Qed.

(** X12 for the sheet [Data] of the scenario. *)
Lemma deleteSheet_first_match_witness :
  let req := Scenario.request {[ "sheetName" := Js.Str "Data" ]} in
  let read := SpreadsheetsGet (stored_credentials Scenario.ann) (Js.Str "S1") in
  let delete :=
    {| spreadsheetId := Js.Str "S1";
       requests := None;
       requestBody := Some [DeleteSheet 7] |} in
  SheetController.deleteSheet Scenario.provider req Scenario.first
  = (Json 200 {[ "message" := Js.Str "Sheet Data deleted successfully." ]},
     {| db := db Scenario.first; client := stored_credentials Scenario.ann;
        trace := trace Scenario.first
                 ++ [read; SpreadsheetsBatchUpdate (stored_credentials Scenario.ann) delete];
        next_id := next_id Scenario.first |}).
Proof.
  apply (deleteSheet_first_match Scenario.provider
           (Scenario.request {[ "sheetName" := Js.Str "Data" ]})
           Scenario.first Scenario.ann [mkSheet "Sheet1" 0] [] (mkSheet "Data" 7)).
  - reflexivity.
  - reflexivity.
  - reflexivity.
  - repeat constructor. cbn. discriminate.
  - reflexivity.
Defined.

(** X13: [deleteSheet] does not check that [sheetName] is there.  Without
    the field, for a stored user whose spreadsheet the provider describes,
    it reads the metadata and answers 404 [Sheet not found], whatever the
    sheets are. *)
Theorem deleteSheet_without_name
    (P : Provider) (req : Req) (w : World) (u : User) (sheets : list Sheet) :
  findById (user_id req) (db w) = Some u →
  body req !! "sheetName" = None →
  spreadsheets_get P (trace w) (stored_credentials u)
                   (Js.get (params req) "sheetId") = inr sheets →
  SheetController.deleteSheet P req w
  = (Json 404 {[ "message" := Js.Str "Sheet not found" ]},
     {| db := db w; client := stored_credentials u;
        trace := trace w ++ [SpreadsheetsGet (stored_credentials u)
                                             (Js.get (params req) "sheetId")];
        next_id := next_id w |}).
Proof.
  intros Hu Hname Hget.
  unfold SheetController.deleteSheet, try_next, mbind, M_bind.
  rewrite (setUserCredentials_found req w u Hu). run_handler.
  cbn -[List.find Js.strict_eq]. rewrite Hget. cbn -[List.find Js.strict_eq].
  rewrite (find_title_None (Js.get (body req) "sheetName") sheets); [done|].
  rewrite (get_absent _ _ Hname). apply Forall_forall. by intros s _.
Qed.

(** X13 for an empty body. *)
Lemma deleteSheet_without_name_witness :
  SheetController.deleteSheet Scenario.provider (Scenario.request ∅) Scenario.first
  = (Json 404 {[ "message" := Js.Str "Sheet not found" ]},
     {| db := db Scenario.first; client := stored_credentials Scenario.ann;
        trace := trace Scenario.first
                 ++ [SpreadsheetsGet (stored_credentials Scenario.ann) (Js.Str "S1")];
        next_id := next_id Scenario.first |}).
Proof.
  apply (deleteSheet_without_name Scenario.provider (Scenario.request ∅)
           Scenario.first Scenario.ann [mkSheet "Sheet1" 0; mkSheet "Data" 7]);
    reflexivity.
Defined.

(** ** The profile page *)

(** X14: for a user id without record [getProfile] does not answer: reading
    the name of [null] throws, and the error goes to [next]; nothing is
    called and nothing changes. *)
Theorem getProfile_user_missing (req : Req) (w : World) :
  findById (user_id req) (db w) = None →
  Account.getProfile req w = (Plain (Next Account.null_name), w).
Proof. intros Hu. unfold Account.getProfile. run_handler. by rewrite Hu. Qed.

(** X14 in the empty world. *)
Lemma getProfile_user_missing_witness :
  Account.getProfile (Scenario.request ∅) Scenario.empty
  = (Plain (Next Account.null_name), Scenario.empty).
Proof. apply getProfile_user_missing. reflexivity. Defined.

(** X15: after a login the provider accepts, in a well-formed store, the
    profile page of the session greets the user by the stored name: the
    provider's name when the login created the record, and the name stored
    before when the external id already had one. *)
Theorem login_then_getProfile
    (P : Provider) (req : Req) (w : World) (tokens : Tokens) (data : Profile) :
  store_ok w →
  getToken P (trace w) (Js.get (query req) "code") = inr tokens →
  userinfo_get P (trace w ++ [GetToken (Js.get (query req) "code")])
               (credentials_of_tokens tokens) = inr data →
  ∃ jwt,
    (AuthController.googleCallback P req w).1
    = CookieRedirect "token" (Signed jwt) true "/auth/profile" ∧
    ∀ pr q b,
      Account.getProfile (mkReq (jwt_id jwt) pr q b)
                         (AuthController.googleCallback P req w).2
      = (Send ("Welcome " +:+ match findOne_googleId (p_id data) (db w) with
                              | Some u => name u
                              | None => p_name data
                              end),
         (AuthController.googleCallback P req w).2).
Proof.
  intros Hok Htok Hinfo.
  destruct (googleCallback_session P req w tokens data Hok Htok Hinfo)
    as (u' & Hres & Hby & _ & _ & _ & Hname).
  exists {| jwt_id := _id u'; jwt_email := email u' |}. split; [done|].
  intros pr q b. unfold Account.getProfile. run_handler. cbn.
  by rewrite Hby, Hname.
Qed.

(** X15 at the second login of the scenario: the provider now reports
    [Bea], the page still greets [Ann]. *)
Lemma login_then_getProfile_witness :
  ∃ jwt,
    (AuthController.googleCallback Scenario.provider (Scenario.request ∅)
                                   Scenario.first).1
    = CookieRedirect "token" (Signed jwt) true "/auth/profile" ∧
    ∀ pr q b,
      Account.getProfile (mkReq (jwt_id jwt) pr q b)
        (AuthController.googleCallback Scenario.provider (Scenario.request ∅)
                                       Scenario.first).2
      = (Send ("Welcome " +:+
               match findOne_googleId "g1" (db Scenario.first) with
               | Some u => name u
               | None => "Bea"
               end),
         (AuthController.googleCallback Scenario.provider (Scenario.request ∅)
                                        Scenario.first).2).
Proof.
  apply (login_then_getProfile
           Scenario.provider (Scenario.request ∅) Scenario.first
           (mkTokens "A2" None (Some 2000))
           (mkProfile "g1" "b@x.com" "Bea" "bea.png")).
  - unfold store_ok. cbn.
    split_and!; repeat constructor; apply not_elem_of_nil.
  - reflexivity.
  - reflexivity.
Defined.

(** ** The remaining spreadsheet handlers *)

Ltac run_sheets :=
  unfold Sheets.try_next, mbind, Sheets.MX_bind, mret, Sheets.MX_ret,
    Sheets.call, Sheets.await_api, Sheets.raise;
  cbn [fst snd].

Section SheetsRuns.
Variables (Data : Type) (A : Sheets.Api Data) (req : Req) (x : Sheets.State).

Lemma lift_setUserCredentials_found (u : User) :
  findById (user_id req) (db (Sheets.core x)) = Some u →
  Sheets.lift (SheetController.setUserCredentials (user_id req)) x
  = (Ok u, Sheets.mkState (with_client (stored_credentials u) (Sheets.core x))
                          (Sheets.calls x)).
Proof.
  intros Hu. unfold Sheets.lift.
  by rewrite (setUserCredentials_found req (Sheets.core x) u Hu).
Qed.

Lemma lift_setUserCredentials_missing :
  findById (user_id req) (db (Sheets.core x)) = None →
  Sheets.lift (SheetController.setUserCredentials (user_id req)) x
  = (Throw (JsError "User not found"), x).
Proof.
  intros Hu. unfold Sheets.lift.
  rewrite (setUserCredentials_missing req (Sheets.core x) Hu). by destruct x.
Qed.

End SheetsRuns.

(** What [response.data.sheets.map] yields: either a row per sheet, in
    order, or the error of the first sheet without grid. *)
Lemma map_throwing_grid (sheets : list Sheets.SheetProperties) :
  Forall (λ s, is_Some (Sheets.gridProperties s)) sheets →
  ∃ rows,
    Sheets.map_throwing Sheets.sheet_metadata sheets = inr rows ∧
    Forall2 (λ s r, entry_title r = Sheets.title s ∧
                    entry_sheetId r = Sheets.sheetId s ∧
                    Sheets.gridProperties s
                    = Some (entry_rowCount r, entry_columnCount r))
            sheets rows.
Proof.
  induction 1 as [|s sheets [[rc cc] Hs] _ (rows & Hrows & Hall)]; cbn.
  - exists []. by split.
  - unfold Sheets.sheet_metadata at 1. rewrite Hs, Hrows.
    eexists. split; [done|]. by constructor.
Qed.

Lemma map_throwing_chart (sheets : list Sheets.SheetProperties) :
  Exists (λ s, Sheets.gridProperties s = None) sheets →
  Sheets.map_throwing Sheets.sheet_metadata sheets = inl Sheets.undefined_rowCount.
Proof.
  induction sheets as [|s sheets IH]; intros Hex; [by inversion Hex|]. cbn.
  unfold Sheets.sheet_metadata at 1.
  destruct (Sheets.gridProperties s) as [[rc cc]|] eqn:Hs; [|done].
  rewrite IH; [done|].
  apply Exists_cons in Hex as [Hex|Hex]; [congruence|done].
Qed.

(** X16: [renameSpreadSheet], [createSheet], [renameSheet] and
    [clearDataFromSheet] check their body after the user lookup.  For a
    stored user, when one of the fields the handler requires is falsy it
    answers 400 with [success: false] and its message, and calls nothing;
    the shared client has by then taken the credentials of the user. *)
Theorem validating_handlers_400
    (Data : Type) (A : Sheets.Api Data) (req : Req) (x : Sheets.State) (u : User)
    (handler : Req → Sheets.State → Reply Data * Sheets.State)
    (fields : list string) (message field : string) :
  (handler, fields, message) ∈ Sheets.validating Data A →
  field ∈ fields →
  Js.truthy (Js.get (body req) field) = false →
  findById (user_id req) (db (Sheets.core x)) = Some u →
  handler req x
  = (Plain (Json 400 {[ "success" := Js.Boolean false; "message" := Js.Str message ]}),
     Sheets.mkState (with_client (stored_credentials u) (Sheets.core x))
                    (Sheets.calls x)).
Proof.
  intros Hin Hfield Hfalsy Hu. unfold Sheets.validating in Hin.
  rewrite !elem_of_cons, elem_of_nil in Hin.
  destruct Hin as [Heq|[Heq|[Heq|[Heq|[]]]]]; injection Heq as -> -> ->;
    rewrite !elem_of_cons, elem_of_nil in Hfield.
  - destruct Hfield as [->|[]].
    unfold Sheets.renameSpreadSheet, Sheets.try_next, mbind, Sheets.MX_bind.
    rewrite (lift_setUserCredentials_found req x u Hu). cbn -[Js.get].
    by rewrite Hfalsy.
  - destruct Hfield as [->|[]].
    unfold Sheets.createSheet, Sheets.try_next, mbind, Sheets.MX_bind.
    rewrite (lift_setUserCredentials_found req x u Hu). cbn -[Js.get].
    by rewrite Hfalsy.
  - unfold Sheets.renameSheet, Sheets.try_next, mbind, Sheets.MX_bind.
    rewrite (lift_setUserCredentials_found req x u Hu). cbn -[Js.get].
    destruct Hfield as [->|[->|[]]]; rewrite Hfalsy; cbn; [done|].
    by rewrite orb_true_r.
  - unfold Sheets.clearDataFromSheet, Sheets.try_next, mbind, Sheets.MX_bind.
    rewrite (lift_setUserCredentials_found req x u Hu). cbn -[Js.get].
    destruct Hfield as [->|[->|[]]]; rewrite Hfalsy; cbn; [done|].
    by rewrite orb_true_r.
Qed.

(** X16 for [renameSheet] with a sheet name and no new name. *)
Lemma validating_handlers_400_witness :
  Sheets.renameSheet string SheetsScenario.api
    (SheetsScenario.request "S1" {[ "sheetName" := Js.Str "Sheet1" ]})
    SheetsScenario.state
  = (Plain (Json 400 {[ "success" := Js.Boolean false;
                        "message" := Js.Str "Both sheetName and newSheetName are required" ]}),
     Sheets.mkState (with_client (stored_credentials Scenario.ann) Scenario.first) []).
Proof.
  apply (validating_handlers_400 string SheetsScenario.api
           (SheetsScenario.request "S1" {[ "sheetName" := Js.Str "Sheet1" ]})
           SheetsScenario.state Scenario.ann
           (Sheets.renameSheet string SheetsScenario.api)
           ["sheetName"; "newSheetName"]
           "Both sheetName and newSheetName are required" "newSheetName").
  - unfold Sheets.validating. rewrite !elem_of_cons. right; right; left. reflexivity.
  - rewrite !elem_of_cons. right; left. reflexivity.
  - reflexivity.
  - reflexivity.
Defined.

(** X17: with a truthy [newTitle], [renameSpreadSheet] for a stored user
    sends one batch update, under [resource], that sets the title to
    [newTitle] with field mask [title]; when the provider accepts, the
    answer echoes [newTitle], and a rejection goes to [next]. *)
Theorem renameSpreadSheet_sends_title
    (Data : Type) (A : Sheets.Api Data) (req : Req) (x : Sheets.State) (u : User) :
  findById (user_id req) (db (Sheets.core x)) = Some u →
  Js.truthy (Js.get (body req) "newTitle") = true →
  let update := Sheets.SpreadsheetsBatchUpdate
    {| Sheets.spreadsheetId := Js.get (params req) "sheetId";
       Sheets.requests := None;
       Sheets.resource :=
         Some [Sheets.UpdateSpreadsheetProperties (Js.get (body req) "newTitle") "title"] |} in
  Sheets.renameSpreadSheet Data A req x
  = (match Sheets.answer A (trace (Sheets.core x)) (Sheets.calls x)
                         (stored_credentials u) update with
     | inr _ => Plain (Json 200 {[ "success" := Js.Boolean true;
                                   "message" := Js.Str "Spreadsheet renamed successfully";
                                   "newTitle" := Js.get (body req) "newTitle" ]})
     | inl e => Plain (Next e)
     end,
     Sheets.mkState (with_client (stored_credentials u) (Sheets.core x))
                    (Sheets.calls x ++ [(stored_credentials u, update)])).
Proof.
  intros Hu Ht update.
  unfold Sheets.renameSpreadSheet, Sheets.try_next, mbind, Sheets.MX_bind.
  rewrite (lift_setUserCredentials_found req x u Hu). cbn -[Js.get].
  rewrite Ht. cbn -[Js.get]. run_sheets. cbn -[Js.get]. fold update.
  by destruct (Sheets.answer A _ _ _ _).
Qed.

(** X17 in the scenario. *)
Lemma renameSpreadSheet_sends_title_witness :
  let req := SheetsScenario.request "S1" {[ "newTitle" := Js.Str "Budget" ]} in
  let update := Sheets.SpreadsheetsBatchUpdate
    {| Sheets.spreadsheetId := Js.get (params req) "sheetId";
       Sheets.requests := None;
       Sheets.resource :=
         Some [Sheets.UpdateSpreadsheetProperties (Js.get (body req) "newTitle") "title"] |} in
  Sheets.renameSpreadSheet string SheetsScenario.api req SheetsScenario.state
  = (match Sheets.answer SheetsScenario.api (trace Scenario.first) []
                         (stored_credentials Scenario.ann) update with
     | inr _ => Plain (Json 200 {[ "success" := Js.Boolean true;
                                   "message" := Js.Str "Spreadsheet renamed successfully";
                                   "newTitle" := Js.get (body req) "newTitle" ]})
     | inl e => Plain (Next e)
     end,
     Sheets.mkState (with_client (stored_credentials Scenario.ann) Scenario.first)
                    ([] ++ [(stored_credentials Scenario.ann, update)])).
Proof.
  apply (renameSpreadSheet_sends_title string SheetsScenario.api
           (SheetsScenario.request "S1" {[ "newTitle" := Js.Str "Budget" ]})
           SheetsScenario.state Scenario.ann);
    reflexivity.
Defined.

(** X18: [renameSheet] addresses the sheet by the submitted name: with both
    names truthy, its one batch update, sent with [requests] at top level,
    carries [sheetName] in the [sheetId] property and [newSheetName] as the
    title. *)
Theorem renameSheet_sends_name_as_id
    (Data : Type) (A : Sheets.Api Data) (req : Req) (x : Sheets.State) (u : User) :
  findById (user_id req) (db (Sheets.core x)) = Some u →
  Js.truthy (Js.get (body req) "sheetName") = true →
  Js.truthy (Js.get (body req) "newSheetName") = true →
  let update := Sheets.SpreadsheetsBatchUpdate
    {| Sheets.spreadsheetId := Js.get (params req) "sheetId";
       Sheets.requests :=
         Some [Sheets.UpdateSheetProperties (Js.get (body req) "sheetName")
                                            (Js.get (body req) "newSheetName") "title"];
       Sheets.resource := None |} in
  Sheets.renameSheet Data A req x
  = (match Sheets.answer A (trace (Sheets.core x)) (Sheets.calls x)
                         (stored_credentials u) update with
     | inr _ => Plain (Json 200 {[ "success" := Js.Boolean true;
                                   "message" := Js.Str "Sheet renamed successfully" ]})
     | inl e => Plain (Next e)
     end,
     Sheets.mkState (with_client (stored_credentials u) (Sheets.core x))
                    (Sheets.calls x ++ [(stored_credentials u, update)])).
Proof.
  intros Hu Ht Ht' update.
  unfold Sheets.renameSheet, Sheets.try_next, mbind, Sheets.MX_bind.
  rewrite (lift_setUserCredentials_found req x u Hu). cbn -[Js.get].
  rewrite Ht, Ht'. cbn -[Js.get]. run_sheets. cbn -[Js.get]. fold update.
  by destruct (Sheets.answer A _ _ _ _).
Qed.

(** X18 in the scenario. *)
Lemma renameSheet_sends_name_as_id_witness :
  let req := SheetsScenario.request "S1"
               {[ "sheetName" := Js.Str "Sheet1"; "newSheetName" := Js.Str "Main" ]} in
  let update := Sheets.SpreadsheetsBatchUpdate
    {| Sheets.spreadsheetId := Js.get (params req) "sheetId";
       Sheets.requests :=
         Some [Sheets.UpdateSheetProperties (Js.get (body req) "sheetName")
                                            (Js.get (body req) "newSheetName") "title"];
       Sheets.resource := None |} in
  Sheets.renameSheet string SheetsScenario.api req SheetsScenario.state
  = (match Sheets.answer SheetsScenario.api (trace Scenario.first) []
                         (stored_credentials Scenario.ann) update with
     | inr _ => Plain (Json 200 {[ "success" := Js.Boolean true;
                                   "message" := Js.Str "Sheet renamed successfully" ]})
     | inl e => Plain (Next e)
     end,
     Sheets.mkState (with_client (stored_credentials Scenario.ann) Scenario.first)
                    ([] ++ [(stored_credentials Scenario.ann, update)])).
Proof.
  apply (renameSheet_sends_name_as_id string SheetsScenario.api
           (SheetsScenario.request "S1"
              {[ "sheetName" := Js.Str "Sheet1"; "newSheetName" := Js.Str "Main" ]})
           SheetsScenario.state Scenario.ann);
    reflexivity.
Defined.

(** X19: [clearDataFromSheet] addresses the range as [sheetName!range]:
    for a stored user and non-empty strings [sheetName] and [range], its one
    call clears the range named by the two joined with an exclamation
    mark. *)
Theorem clearDataFromSheet_range
    (Data : Type) (A : Sheets.Api Data) (req : Req) (x : Sheets.State) (u : User)
    (sheetName range : string) :
  findById (user_id req) (db (Sheets.core x)) = Some u →
  body req !! "sheetName" = Some (Js.Str sheetName) →
  body req !! "range" = Some (Js.Str range) →
  sheetName ≠ EmptyString → range ≠ EmptyString →
  let clear := Sheets.ValuesClear (Js.get (params req) "sheetId")
                                  (sheetName +:+ "!" +:+ range) in
  Sheets.clearDataFromSheet Data A req x
  = (match Sheets.answer A (trace (Sheets.core x)) (Sheets.calls x)
                         (stored_credentials u) clear with
     | inr _ => Plain (Json 200 {[ "success" := Js.Boolean true;
                                   "message" := Js.Str "Data cleared successfully." ]})
     | inl e => Plain (Next e)
     end,
     Sheets.mkState (with_client (stored_credentials u) (Sheets.core x))
                    (Sheets.calls x ++ [(stored_credentials u, clear)])).
Proof.
  intros Hu Hname Hrange Hn Hr clear.
  unfold Sheets.clearDataFromSheet, Sheets.try_next, mbind, Sheets.MX_bind.
  rewrite (lift_setUserCredentials_found req x u Hu). cbn -[Js.get].
  assert (Js.get (body req) "sheetName" = Js.Str sheetName) as ->
    by (unfold Js.get; by rewrite Hname).
  assert (Js.get (body req) "range" = Js.Str range) as ->
    by (unfold Js.get; by rewrite Hrange).
  destruct sheetName as [|a sheetName]; [done|].
  destruct range as [|b range]; [done|].
  cbn -[Js.get String.append]. run_sheets. cbn -[Js.get String.append].
  fold clear. by destruct (Sheets.answer A _ _ _ _).
Qed.

(** X19 for the range [A1:B2] of [Sheet1]. *)
Lemma clearDataFromSheet_range_witness :
  let req := SheetsScenario.request "S1"
               {[ "sheetName" := Js.Str "Sheet1"; "range" := Js.Str "A1:B2" ]} in
  let clear := Sheets.ValuesClear (Js.get (params req) "sheetId")
                                  ("Sheet1" +:+ "!" +:+ "A1:B2") in
  Sheets.clearDataFromSheet string SheetsScenario.api req SheetsScenario.state
  = (match Sheets.answer SheetsScenario.api (trace Scenario.first) []
                         (stored_credentials Scenario.ann) clear with
     | inr _ => Plain (Json 200 {[ "success" := Js.Boolean true;
                                   "message" := Js.Str "Data cleared successfully." ]})
     | inl e => Plain (Next e)
     end,
     Sheets.mkState (with_client (stored_credentials Scenario.ann) Scenario.first)
                    ([] ++ [(stored_credentials Scenario.ann, clear)])).
Proof.
  apply (clearDataFromSheet_range string SheetsScenario.api
           (SheetsScenario.request "S1"
              {[ "sheetName" := Js.Str "Sheet1"; "range" := Js.Str "A1:B2" ]})
           SheetsScenario.state Scenario.ann "Sheet1" "A1:B2");
    (reflexivity || discriminate).
Defined.

(** X20: [getSheet] has no default sheet.  Without [sheetName] in the body,
    for a stored user, it asks the provider for the range [undefined], and
    answers with whatever the provider returns. *)
Theorem getSheet_without_name
    (Data : Type) (A : Sheets.Api Data) (req : Req) (x : Sheets.State) (u : User) :
  findById (user_id req) (db (Sheets.core x)) = Some u →
  body req !! "sheetName" = None →
  let read := Sheets.ValuesGet (Js.get (params req) "sheetId") Js.Undefined in
  Sheets.getSheet Data A req x
  = (match Sheets.answer A (trace (Sheets.core x)) (Sheets.calls x)
                         (stored_credentials u) read with
     | inr data => JsonData data
     | inl e => Plain (Next e)
     end,
     Sheets.mkState (with_client (stored_credentials u) (Sheets.core x))
                    (Sheets.calls x ++ [(stored_credentials u, read)])).
Proof.
  intros Hu Hname read.
  unfold Sheets.getSheet, Sheets.try_next, mbind, Sheets.MX_bind.
  rewrite (lift_setUserCredentials_found req x u Hu). cbn -[Js.get].
  rewrite (get_absent _ _ Hname). run_sheets. cbn -[Js.get]. fold read.
  by destruct (Sheets.answer A _ _ _ _).
Qed.

(** X20 for an empty body. *)
Lemma getSheet_without_name_witness :
  let req := SheetsScenario.request "S1" ∅ in
  let read := Sheets.ValuesGet (Js.get (params req) "sheetId") Js.Undefined in
  Sheets.getSheet string SheetsScenario.api req SheetsScenario.state
  = (match Sheets.answer SheetsScenario.api (trace Scenario.first) []
                         (stored_credentials Scenario.ann) read with
     | inr data => JsonData data
     | inl e => Plain (Next e)
     end,
     Sheets.mkState (with_client (stored_credentials Scenario.ann) Scenario.first)
                    ([] ++ [(stored_credentials Scenario.ann, read)])).
Proof.
  apply (getSheet_without_name string SheetsScenario.api
           (SheetsScenario.request "S1" ∅) SheetsScenario.state Scenario.ann);
    reflexivity.
Defined.

(** X21: when every sheet the provider reports has grid properties,
    [listSheetsWithMetadata] answers with one row per sheet, in the order
    of the provider, each with the title, id, row count and column count of
    its sheet. *)
Theorem listSheetsWithMetadata_rows
    (Data : Type) (A : Sheets.Api Data) (req : Req) (x : Sheets.State) (u : User)
    (sheets : list Sheets.SheetProperties) :
  findById (user_id req) (db (Sheets.core x)) = Some u →
  Sheets.sheets_of A (trace (Sheets.core x)) (Sheets.calls x) (stored_credentials u)
                   (Js.get (params req) "sheetId") = inr sheets →
  Forall (λ s, is_Some (Sheets.gridProperties s)) sheets →
  ∃ rows,
    (Sheets.listSheetsWithMetadata Data A req x).1 = SheetList rows ∧
    Forall2 (λ s r, entry_title r = Sheets.title s ∧
                    entry_sheetId r = Sheets.sheetId s ∧
                    Sheets.gridProperties s
                    = Some (entry_rowCount r, entry_columnCount r))
            sheets rows.
Proof.
  intros Hu Hget Hgrid.
  destruct (map_throwing_grid sheets Hgrid) as (rows & Hrows & Hall).
  exists rows. split; [|done].
  unfold Sheets.listSheetsWithMetadata, Sheets.try_next, mbind, Sheets.MX_bind.
  rewrite (lift_setUserCredentials_found req x u Hu). run_sheets. cbn -[Js.get].
  rewrite Hget. cbn -[Js.get]. by rewrite Hrows.
Qed.

(** X21 for the spreadsheet [S1] of the scenario. *)
Lemma listSheetsWithMetadata_rows_witness :
  ∃ rows,
    (Sheets.listSheetsWithMetadata string SheetsScenario.api
       (SheetsScenario.request "S1" ∅) SheetsScenario.state).1 = SheetList rows ∧
    Forall2 (λ s r, entry_title r = Sheets.title s ∧
                    entry_sheetId r = Sheets.sheetId s ∧
                    Sheets.gridProperties s
                    = Some (entry_rowCount r, entry_columnCount r))
            [Sheets.mkSheetProperties "Sheet1" 0 (Some (1000, 26))] rows.
Proof.
  apply (listSheetsWithMetadata_rows string SheetsScenario.api
           (SheetsScenario.request "S1" ∅) SheetsScenario.state Scenario.ann).
  - reflexivity.
  - reflexivity.
  - repeat constructor. cbn. eauto.
Defined.

(** X22: one sheet without grid properties (a chart sheet) makes
    [listSheetsWithMetadata] fail as a whole: the read of [rowCount] throws,
    no list is sent, and the error goes to [next]. *)
Theorem listSheetsWithMetadata_chart
    (Data : Type) (A : Sheets.Api Data) (req : Req) (x : Sheets.State) (u : User)
    (sheets : list Sheets.SheetProperties) :
  findById (user_id req) (db (Sheets.core x)) = Some u →
  Sheets.sheets_of A (trace (Sheets.core x)) (Sheets.calls x) (stored_credentials u)
                   (Js.get (params req) "sheetId") = inr sheets →
  Exists (λ s, Sheets.gridProperties s = None) sheets →
  (Sheets.listSheetsWithMetadata Data A req x).1
  = Plain (Next Sheets.undefined_rowCount).
Proof.
  intros Hu Hget Hchart.
  unfold Sheets.listSheetsWithMetadata, Sheets.try_next, mbind, Sheets.MX_bind.
  rewrite (lift_setUserCredentials_found req x u Hu). run_sheets. cbn -[Js.get].
  rewrite Hget. cbn -[Js.get]. by rewrite (map_throwing_chart sheets Hchart).
Qed.

(** X22 for the spreadsheet [S2] of the scenario, which has a chart. *)
Lemma listSheetsWithMetadata_chart_witness :
  (Sheets.listSheetsWithMetadata string SheetsScenario.api
     (SheetsScenario.request "S2" ∅) SheetsScenario.state).1
  = Plain (Next Sheets.undefined_rowCount).
Proof.
  apply (listSheetsWithMetadata_chart string SheetsScenario.api
           (SheetsScenario.request "S2" ∅) SheetsScenario.state Scenario.ann
           [Sheets.mkSheetProperties "Sheet1" 0 (Some (1000, 26));
            Sheets.mkSheetProperties "Chart" 9 None]).
  - reflexivity.
  - reflexivity.
  - apply Exists_cons. right. apply Exists_cons. left. reflexivity.
Defined.

(** X23: for a user id without record every one of these handlers ends in
    [next(Error('User not found'))] before looking at the body: nothing is
    called and nothing changes. *)
Theorem sheets_handlers_user_missing
    (Data : Type) (A : Sheets.Api Data) (req : Req) (x : Sheets.State)
    (handler : Req → Sheets.State → Reply Data * Sheets.State) :
  handler ∈ Sheets.handlers Data A →
  findById (user_id req) (db (Sheets.core x)) = None →
  handler req x = (Plain (Next (JsError "User not found")), x).
Proof.
  intros Hin Hu. unfold Sheets.handlers in Hin.
  rewrite !elem_of_cons, elem_of_nil in Hin.
  destruct Hin as [->|[->|[->|[->|[->|[->|[->|[]]]]]]]];
    unfold Sheets.renameSpreadSheet, Sheets.createSheet, Sheets.renameSheet,
      Sheets.getSheet, Sheets.deleteSpreadSheet, Sheets.clearDataFromSheet,
      Sheets.listSheetsWithMetadata, Sheets.try_next, mbind, Sheets.MX_bind;
    by rewrite (lift_setUserCredentials_missing req x Hu).
Qed.

(** X23 for [deleteSpreadSheet] in the empty world. *)
Lemma sheets_handlers_user_missing_witness :
  Sheets.deleteSpreadSheet string SheetsScenario.api (SheetsScenario.request "S1" ∅)
                           (Sheets.mkState Scenario.empty [])
  = (Plain (Next (JsError "User not found")), Sheets.mkState Scenario.empty []).
Proof.
  apply (sheets_handlers_user_missing string SheetsScenario.api).
  - unfold Sheets.handlers. rewrite !elem_of_cons. do 4 right. left. reflexivity.
  - reflexivity.
Defined.

(** X24: for a stored user every one of these handlers issues its first
    call, when it makes one, with the stored token pair of that user and no
    look at its expiry; and none of them writes the collection. *)
Theorem sheets_handlers_first_call
    (Data : Type) (A : Sheets.Api Data) (req : Req) (x : Sheets.State) (u : User)
    (handler : Req → Sheets.State → Reply Data * Sheets.State) :
  handler ∈ Sheets.handlers Data A →
  findById (user_id req) (db (Sheets.core x)) = Some u →
  db (Sheets.core (handler req x).2) = db (Sheets.core x) ∧
  ∃ made, Sheets.calls (handler req x).2 = Sheets.calls x ++ made ∧
          ∀ first, head made = Some first →
                   first.1 = {| cred_access_token := Some (accessToken u);
                                cred_refresh_token := Js.of_string (refreshToken u);
                                cred_expiry_date := None |}.
Proof.
  intros Hin Hu. unfold Sheets.handlers in Hin.
  rewrite !elem_of_cons, elem_of_nil in Hin.
  destruct Hin as [->|[->|[->|[->|[->|[->|[->|[]]]]]]]];
    unfold Sheets.renameSpreadSheet, Sheets.createSheet, Sheets.renameSheet,
      Sheets.getSheet, Sheets.deleteSpreadSheet, Sheets.clearDataFromSheet,
      Sheets.listSheetsWithMetadata, Sheets.try_next, mbind, Sheets.MX_bind;
    rewrite (lift_setUserCredentials_found req x u Hu); cbn -[Js.get];
    repeat match goal with
           | |- context [if ?b then _ else _] => destruct b; cbn -[Js.get]
           end;
    run_sheets; cbn -[Js.get];
    repeat match goal with
           | |- context [match Sheets.answer ?a ?t ?c ?au ?cl with _ => _ end] =>
               destruct (Sheets.answer a t c au cl); cbn -[Js.get]
           | |- context [match Sheets.sheets_of ?a ?t ?c ?au ?i with _ => _ end] =>
               destruct (Sheets.sheets_of a t c au i); cbn -[Js.get]
           | |- context [match Sheets.map_throwing ?f ?l with _ => _ end] =>
               destruct (Sheets.map_throwing f l); cbn -[Js.get]
           end;
    (split; [done|]);
    first [ by exists []; rewrite app_nil_r
          | eexists [_]; split; [done|]; by intros first [= <-] ].
Qed.

(** X24 for [deleteSpreadSheet] in the scenario, where the stored access
    token expired at 1000. *)
Lemma sheets_handlers_first_call_witness :
  db (Sheets.core (Sheets.deleteSpreadSheet string SheetsScenario.api
                     (SheetsScenario.request "S1" ∅) SheetsScenario.state).2)
  = db Scenario.first ∧
  ∃ made, Sheets.calls (Sheets.deleteSpreadSheet string SheetsScenario.api
                          (SheetsScenario.request "S1" ∅) SheetsScenario.state).2
          = [] ++ made ∧
          ∀ first, head made = Some first →
                   first.1 = {| cred_access_token := Some (accessToken Scenario.ann);
                                cred_refresh_token := Js.of_string (refreshToken Scenario.ann);
                                cred_expiry_date := None |}.
Proof.
  apply (sheets_handlers_first_call string SheetsScenario.api
           (SheetsScenario.request "S1" ∅) SheetsScenario.state Scenario.ann).
  - unfold Sheets.handlers. rewrite !elem_of_cons. do 4 right. left. reflexivity.
  - reflexivity.
Defined.
